(** * page-backend: the Google Drive catalogue endpoint

    A shallow embedding of the two handlers of the repository,
    [api/index.go] (images, videos, [metadata.txt] and [metadata.docx]) and
    the earlier handler kept next to it (images and [metadata.txt] only),
    followed by the properties of the metadata parser, the file
    classification, the folder walk and the HTTP responses. *)

From Stdlib Require Import String Ascii List Bool Arith Lia.
From stdpp Require Import gmap strings list.

Local Open Scope string_scope.
Local Open Scope list_scope.

(** ** The part of Go's [strings] and [fmt] packages the handlers call

    A Go string is a sequence of bytes, here a [string] of [ascii]. *)

Module GoStrings.

Definition byte (n : nat) : ascii := ascii_of_nat n.

Fixpoint bytes (l : list nat) : string :=
  match l with
  | [] => ""
  | n :: r => String (byte n) (bytes r)
  end.

Fixpoint toBytes (s : string) : list ascii :=
  match s with
  | "" => []
  | String c r => c :: toBytes r
  end.

Fixpoint ofBytes (l : list ascii) : string :=
  match l with
  | [] => ""
  | c :: r => String c (ofBytes r)
  end.

(** [strings.Cut] for a one-byte separator: the text before and after the
    first occurrence of [sep], when there is one. *)
Fixpoint Cut (s : string) (sep : ascii) : option (string * string) :=
  match s with
  | "" => None
  | String c r =>
      if Ascii.eqb c sep then Some ("", r)
      else match Cut r sep with
           | Some (a, b) => Some (String c a, b)
           | None => None
           end
  end.

(** [strings.Count] for a one-byte separator. *)
Fixpoint Count (s : string) (sep : ascii) : nat :=
  match s with
  | "" => 0
  | String c r => (if Ascii.eqb c sep then 1 else 0) + Count r sep
  end.

(** The loop of [strings.genSplit]: cut at the separator at most [cuts]
    times, the last element is the unsplit remainder. *)
Fixpoint genSplit (cuts : nat) (s : string) (sep : ascii) : list string :=
  match cuts with
  | 0 => [s]
  | S k => match Cut s sep with
           | None => [s]
           | Some (a, b) => a :: genSplit k b sep
           end
  end.

(** [strings.Split(s, sep)]: all the pieces. *)
Definition Split (s : string) (sep : ascii) : list string :=
  genSplit (Count s sep) s sep.

(** [strings.SplitN(s, sep, n)] for [n >= 0]: at most [n] pieces. *)
Definition SplitN (s : string) (sep : ascii) (n : nat) : list string :=
  match n with
  | 0 => []
  | S k => genSplit k s sep
  end.

(** The UTF-8 encodings of the code points for which [unicode.IsSpace]
    holds: tab, LF, VT, FF, CR, space, U+0085, U+00A0, U+1680,
    U+2000 to U+200A, U+2028, U+2029, U+202F, U+205F and U+3000. *)
Definition spaceEncodings : list (list nat) :=
  [ [9]; [10]; [11]; [12]; [13]; [32];
    [194; 133]; [194; 160]; [225; 154; 128];
    [226; 128; 128]; [226; 128; 129]; [226; 128; 130]; [226; 128; 131];
    [226; 128; 132]; [226; 128; 133]; [226; 128; 134]; [226; 128; 135];
    [226; 128; 136]; [226; 128; 137]; [226; 128; 138];
    [226; 128; 168]; [226; 128; 169]; [226; 128; 175];
    [226; 129; 159]; [227; 128; 128] ].

(** [stripPrefix p l]: [l] without its prefix [p], when it starts with it. *)
Fixpoint stripPrefix (p l : list ascii) : option (list ascii) :=
  match p with
  | [] => Some l
  | c :: p' => match l with
               | [] => None
               | d :: l' => if Ascii.eqb c d then stripPrefix p' l' else None
               end
  end.

(** The rest of [l] after one leading white-space rune whose encoding is
    (the image under [dir] of) one of [encs]. *)
Fixpoint stripSpace (dir : list ascii -> list ascii)
    (encs : list (list nat)) (l : list ascii) : option (list ascii) :=
  match encs with
  | [] => None
  | e :: rest => match stripPrefix (dir (map byte e)) l with
                 | Some l' => Some l'
                 | None => stripSpace dir rest l
                 end
  end.

Fixpoint trimFuel (dir : list ascii -> list ascii) (fuel : nat)
    (l : list ascii) : list ascii :=
  match fuel with
  | 0 => l
  | S k => match stripSpace dir spaceEncodings l with
           | Some l' => trimFuel dir k l'
           | None => l
           end
  end.

(** [strings.TrimLeftFunc(s, unicode.IsSpace)] on the bytes of [s]. *)
Definition trimLeft (l : list ascii) : list ascii :=
  trimFuel id (length l) l.

(** [strings.TrimRightFunc(s, unicode.IsSpace)]: the same scan from the
    end, on the reversed bytes and the reversed encodings. *)
Definition trimRight (l : list ascii) : list ascii :=
  rev (trimFuel (@rev ascii) (length l) (rev l)).

(** [strings.TrimSpace]. *)
Definition TrimSpace (s : string) : string :=
  ofBytes (trimRight (trimLeft (toBytes s))).

Definition isASCII (s : string) : bool :=
  forallb (fun c => Nat.ltb (nat_of_ascii c) 128) (toBytes s).

Definition lowerByte (c : ascii) : ascii :=
  let n := nat_of_ascii c in
  if Nat.leb 65 n && Nat.leb n 90 then ascii_of_nat (n + 32) else c.

Fixpoint mapBytes (f : ascii -> ascii) (s : string) : string :=
  match s with
  | "" => ""
  | String c r => String (f c) (mapBytes f r)
  end.

Section Lower.
(** [strings.Map(unicode.ToLower, s)], which [strings.ToLower] falls
    back to when [s] has a byte above 0x7f; it needs the case tables of
    Go's [unicode] package, which are not part of this repository. *)
Variable MapToLower : string -> string.

(** [strings.ToLower]: ASCII-only text is lower-cased byte by byte. *)
Definition ToLower (s : string) : string :=
  if isASCII s then mapBytes lowerByte s else MapToLower s.
End Lower.

(** [strings.HasSuffix]. *)
Definition HasSuffix (s suffix : string) : bool :=
  match stripPrefix (rev (toBytes suffix)) (rev (toBytes s)) with
  | Some _ => true
  | None => false
  end.

(** [fmt.Sprintf] for formats whose only verbs are [%s] and [%v], applied
    to strings (an error prints as its message): each verb is replaced by
    the next argument. *)
Fixpoint Sprintf (format : string) (args : list string) : string :=
  match format with
  | String "%" (String v r) =>
      if Ascii.eqb v "s" || Ascii.eqb v "v" then
        match args with
        | a :: args' => a +:+ Sprintf r args'
        | [] => "%!" +:+ String v "(MISSING)" +:+ Sprintf r []
        end
      else String "%" (String v (Sprintf r args))
  | String c r => String c (Sprintf r args)
  | "" => ""
  end.

End GoStrings.

Import GoStrings.

(** ** The outside world: Drive, the file system, pandoc, the console *)

(** The fields of [drive.File] the handlers read. *)
Record File := { Id : string; Name : string; MimeType : string }.

(** A Go result [(value, err)] whose value is not used when [err != nil];
    an error is represented by its message. *)
Inductive Result (A : Type) : Type :=
| OK (a : A)
| Err (msg : string).
Arguments OK {A} a.
Arguments Err {A} msg.

(** A Go slice: [nil] or an allocated sequence. *)
Definition slice (A : Type) : Type := option (list A).

Definition elems {A} (s : slice A) : list A := default [] s.

Definition append {A} (s : slice A) (x : A) : slice A := Some (elems s ++ [x]).

(** [*drive.Service]: the client built from a credentials blob. *)
Record Service := { credentials : string }.

(** What the environment answers to each call the handlers make.
    [Download] stands for [Files.Get(id).Download()] followed by
    [io.ReadAll] of the body: the handlers return the error of either
    unchanged. [Pandoc path data] is the output of
    [pandoc path -t plain] when the file at [path] holds [data]. *)
Record World := {
  Getenv : string -> string;
  NewService : string -> Result Service;
  FilesList : Service -> string -> string -> Result (list File);
  Download : Service -> string -> Result string;
  WriteFile : string -> string -> option string;
  Pandoc : string -> string -> Result string
}.

(** The calls that leave the process, in the order they are made. *)
Inductive Event : Type :=
| EvNewService (creds : string)
| EvFilesList (q fields : string)
| EvDownload (fileID : string)
| EvWriteFile (path data : string)
| EvPandoc (path : string)
| EvRemove (path : string)
| EvPrintf (text : string).

Definition isDownload (e : Event) : bool :=
  match e with
  | EvDownload _ => true
  | _ => false
  end.

(** Computations that record their calls. *)
Definition M (A : Type) : Type := (A * list Event)%type.

Definition ret {A} (a : A) : M A := (a, []).

Definition bind {A B} (m : M A) (k : A -> M B) : M B :=
  let (a, l1) := m in
  let (b, l2) := k a in
  (b, l1 ++ l2).

Definition emit (e : Event) : M unit := (tt, [e]).

Notation "x <- m ;; k" := (bind m (fun x => k))
  (at level 100, m at next level, right associativity).
Notation "m ;;; k" := (bind m (fun _ => k))
  (at level 100, right associativity).

Definition value {A} (m : M A) : A := fst m.
Definition calls {A} (m : M A) : list Event := snd m.

Section Calls.
Variable w : World.

(** [drive.NewService(ctx, option.WithCredentialsJSON(creds))]. *)
Definition drive_NewService (creds : string) : M (Result Service) :=
  emit (EvNewService creds) ;;; ret (NewService w creds).

(** [srv.Files.List().Q(q).Fields(fields).Do()]. *)
Definition Files_List (srv : Service) (q fields : string)
  : M (Result (list File)) :=
  emit (EvFilesList q fields) ;;; ret (FilesList w srv q fields).

(** [srv.Files.Get(fileID).Download()] and [io.ReadAll(resp.Body)]. *)
Definition Files_Download (srv : Service) (fileID : string)
  : M (Result string) :=
  emit (EvDownload fileID) ;;; ret (Download w srv fileID).

(** [os.WriteFile(path, data, 0644)]. *)
Definition os_WriteFile (path data : string) : M (option string) :=
  emit (EvWriteFile path data) ;;; ret (WriteFile w path data).

(** [exec.Command("pandoc", path, "-t", "plain").Output()], run when the
    file at [path] holds [data]. *)
Definition pandoc_Output (path data : string) : M (Result string) :=
  emit (EvPandoc path) ;;; ret (Pandoc w path data).

(** [os.Remove(path)]. *)
Definition os_Remove (path : string) : M unit := emit (EvRemove path).

(** [fmt.Printf(format, args...)]. *)
Definition Printf (format : string) (args : list string) : M unit :=
  emit (EvPrintf (Sprintf format args)).
End Calls.

(** ** HTTP: the request, the response writer, JSON documents *)

(** A JSON document, as [encoding/json] lays out the structs below. *)
#[local] Unset Elimination Schemes.
Inductive JSON : Type :=
| JNull
| JString (s : string)
| JArray (l : list JSON)
| JObject (fields : list (string * JSON)).
#[local] Set Elimination Schemes.

(** The member [key] of a JSON object. *)
Definition jsonField (key : string) (j : JSON) : option JSON :=
  match j with
  | JObject members =>
      snd <$> List.find (fun m => String.eqb (fst m) key) members
  | _ => None
  end.

Definition jsonStrings (s : slice string) : JSON :=
  match s with
  | None => JNull
  | Some l => JArray (map JString l)
  end.

(** The part of [*http.Request] the handlers read: the method and
    [r.URL.Query().Get]. *)
Record Request := { Method : string; QueryGet : string -> string }.

(** [http.ResponseWriter]: the header map the handler edits, the status
    line and header sent so far, and the documents written to the body. *)
Record ResponseWriter := {
  header : gmap string string;
  sent : option (nat * gmap string string);
  body : list JSON
}.

Definition newResponseWriter : ResponseWriter :=
  {| header := ∅; sent := None; body := [] |}.

(** [w.Header().Set(k, v)]. *)
Definition Header_Set (k v : string) (rw : ResponseWriter) : ResponseWriter :=
  {| header := <[k := v]> (header rw); sent := sent rw; body := body rw |}.

(** [w.WriteHeader(code)]: sends the status line and the current header;
    it has no effect once they have been sent. *)
Definition WriteHeader (code : nat) (rw : ResponseWriter) : ResponseWriter :=
  match sent rw with
  | Some _ => rw
  | None => {| header := header rw; sent := Some (code, header rw);
               body := body rw |}
  end.

(** [w.Write]: the first write sends status 200 when no status has been
    sent yet. [json.NewEncoder(w).Encode(v)] writes one document. *)
Definition Encode (v : JSON) (rw : ResponseWriter) : ResponseWriter :=
  let rw := WriteHeader 200 rw in
  {| header := header rw; sent := sent rw; body := body rw ++ [v] |}.

(** What the client receives once the handler has returned: the server
    sends status 200 itself when the handler sent none. *)
Definition statusCode (rw : ResponseWriter) : nat :=
  match sent rw with
  | Some (code, _) => code
  | None => 200
  end.

Definition sentHeader (rw : ResponseWriter) : gmap string string :=
  match sent rw with
  | Some (_, h) => h
  | None => header rw
  end.

(** ** Functions that are the same, line for line, in both handlers *)

Definition newline : ascii := byte 10.
Definition colon : ascii := ":"%char.

Definition isImage (mimeType : string) : bool :=
  let imageTypes :=
    [ "image/jpeg"; "image/jpg"; "image/png"; "image/gif"; "image/webp";
      "image/bmp" ] in
  existsb (fun t => String.eqb mimeType t) imageTypes.

Definition getImageURL (fileID : string) : string :=
  Sprintf "https://drive.google.com/uc?export=view&id=%s" [fileID].

Section Parser.
Variable MapToLower : string -> string.

(** The body of the loop of [parseMetadata]. *)
Definition parseLine (metadata : gmap string string) (line : string)
  : gmap string string :=
  let line := TrimSpace line in
  if String.eqb line "" then metadata
  else
    match SplitN line colon 2 with
    | [part0; part1] =>
        let key := ToLower MapToLower (TrimSpace part0) in
        let val := TrimSpace part1 in
        <[key := val]> metadata
    | _ => metadata
    end.

Definition parseMetadata (content : string) : gmap string string :=
  let lines := Split content newline in
  fold_left parseLine lines ∅.
End Parser.

(** [metadata[key]]: the zero value when the key is absent. *)
Definition at_key (metadata : gmap string string) (key : string) : string :=
  default "" (metadata !! key).

(** The query of [getItems] and the query of [processItemFolder]. *)
Definition foldersQuery (rootFolderID : string) : string :=
  Sprintf
    "'%s' in parents and mimeType='application/vnd.google-apps.folder' and trashed=false"
    [rootFolderID].

Definition filesQuery (folderID : string) : string :=
  Sprintf "'%s' in parents and trashed=false" [folderID].

Definition folderFields : string := "files(id, name)".

(** The format of the diagnostic line of [getItems], ending in a newline. *)
Definition processErrorFormat : string :=
  "Error processing folder %s: %v" +:+ String newline "".

Definition fileFields : string :=
  "files(id, name, mimeType, webContentLink, webViewLink)".

Definition corsHeaders (rw : ResponseWriter) : ResponseWriter :=
  Header_Set "Access-Control-Allow-Headers" "Content-Type"
    (Header_Set "Access-Control-Allow-Methods" "GET, OPTIONS"
      (Header_Set "Access-Control-Allow-Origin" "*"
        (Header_Set "Content-Type" "application/json" rw))).

(** ** [api/index.go]: images, videos, [metadata.txt] and [metadata.docx] *)

Module Extended.

Record Item := {
  Title : string;
  Subtitle : string;
  Description : string;
  Code : string;
  ImageURLs : slice string;
  VideoURLs : slice string
}.

(** The four metadata fields of an item. *)
Definition fields (it : Item) : list string :=
  [Title it; Subtitle it; Description it; Code it].

Record Response := { Items : slice Item; Error : string }.

(** The layout the struct tags give: [title], [subtitle], [description],
    [code], [imageUrls], [videoUrls]. *)
Definition itemJSON (it : Item) : JSON :=
  JObject [ ("title", JString (Title it));
            ("subtitle", JString (Subtitle it));
            ("description", JString (Description it));
            ("code", JString (Code it));
            ("imageUrls", jsonStrings (ImageURLs it));
            ("videoUrls", jsonStrings (VideoURLs it)) ].

(** [items] is always present, [error] is left out when empty
    ([omitempty]). *)
Definition responseJSON (r : Response) : JSON :=
  JObject
    (("items", match Items r with
               | None => JNull
               | Some l => JArray (map itemJSON l)
               end)
     :: (if String.eqb (Error r) "" then []
         else [("error", JString (Error r))])).

Definition isVideo (mimeType : string) : bool :=
  let videoTypes :=
    [ "video/mp4"; "video/mpeg"; "video/quicktime"; "video/x-msvideo";
      "video/x-ms-wmv"; "video/webm"; "video/ogg"; "video/3gpp";
      "video/x-flv" ] in
  existsb (fun t => String.eqb mimeType t) videoTypes.

Definition getVideoURL (fileID : string) : string :=
  Sprintf "https://drive.google.com/file/d/%s/preview" [fileID].

Definition isMetadataName (name : string) : bool :=
  String.eqb name "metadata.txt" || String.eqb name "metadata.docx".

Definition addImage (item : Item) (url : string) : Item :=
  {| Title := Title item; Subtitle := Subtitle item;
     Description := Description item; Code := Code item;
     ImageURLs := append (ImageURLs item) url;
     VideoURLs := VideoURLs item |}.

Definition addVideo (item : Item) (url : string) : Item :=
  {| Title := Title item; Subtitle := Subtitle item;
     Description := Description item; Code := Code item;
     ImageURLs := ImageURLs item;
     VideoURLs := append (VideoURLs item) url |}.

Definition setMetadata (item : Item) (metadata : gmap string string) : Item :=
  {| Title := at_key metadata "title";
     Subtitle := at_key metadata "subtitle";
     Description := at_key metadata "description";
     Code := at_key metadata "code";
     ImageURLs := ImageURLs item;
     VideoURLs := VideoURLs item |}.

(** The variables the loop of [processItemFolder] updates. *)
Record Walk := {
  item : Item;
  metadataFileID : string;
  metadataFileName : string
}.

(** One iteration of the loop over [fileList.Files]. *)
Definition visit (st : Walk) (file : File) : Walk :=
  if isMetadataName (Name file) then
    {| item := item st; metadataFileID := Id file;
       metadataFileName := Name file |}
  else
    let item1 :=
      if isImage (MimeType file)
      then addImage (item st) (getImageURL (Id file)) else item st in
    let item2 :=
      if isVideo (MimeType file)
      then addVideo item1 (getVideoURL (Id file)) else item1 in
    {| item := item2; metadataFileID := metadataFileID st;
       metadataFileName := metadataFileName st |}.

Definition emptyItem : Item :=
  {| Title := ""; Subtitle := ""; Description := ""; Code := "";
     ImageURLs := Some []; VideoURLs := Some [] |}.

Definition walkFiles (files : list File) : Walk :=
  fold_left visit files
    {| item := emptyItem; metadataFileID := ""; metadataFileName := "" |}.

Section Program.
Variable MapToLower : string -> string.
Variable w : World.

Definition readMetadata (srv : Service) (fileID fileName : string)
  : M (Result (gmap string string)) :=
  body <- Files_Download w srv fileID ;;
  match body with
  | Err err => ret (Err err)
  | OK body =>
      if HasSuffix (ToLower MapToLower fileName) ".docx" then
        let tmpFile := Sprintf "/tmp/metadata_%s.docx" [fileID] in
        werr <- os_WriteFile w tmpFile body ;;
        match werr with
        | Some err =>
            ret (Err (Sprintf "error writing temp file: %v" [err]))
        | None =>
            (* [defer os.Remove(tmpFile)] runs on both returns below *)
            output <- pandoc_Output w tmpFile body ;;
            os_Remove tmpFile ;;;
            match output with
            | Err err =>
                ret (Err (Sprintf "error running pandoc: %v" [err]))
            | OK output => ret (OK (parseMetadata MapToLower output))
            end
        end
      else ret (OK (parseMetadata MapToLower body))
  end.

(** Go returns the pair [(item, err)]; on an error the item built so
    far comes with it. *)
Definition processItemFolder (srv : Service) (folderID folderName : string)
  : M (Item * option string) :=
  let query := filesQuery folderID in
  fileList <- Files_List w srv query fileFields ;;
  match fileList with
  | Err err =>
      ret (emptyItem,
           Some (Sprintf "error listing files in folder: %v" [err]))
  | OK files =>
      let st := walkFiles files in
      if negb (String.eqb (metadataFileID st) "") then
        metadata <- readMetadata srv (metadataFileID st)
                      (metadataFileName st) ;;
        match metadata with
        | Err err =>
            ret (item st, Some (Sprintf "error reading metadata: %v" [err]))
        | OK metadata => ret (setMetadata (item st) metadata, None)
        end
      else ret (item st, None)
  end.

(** The loop of [getItems] over [folderList.Files]. *)
Fixpoint eachFolder (srv : Service) (folders : list File)
    (items : slice Item) : M (slice Item) :=
  match folders with
  | [] => ret items
  | folder :: rest =>
      r <- processItemFolder srv (Id folder) (Name folder) ;;
      match snd r with
      | Some err =>
          Printf processErrorFormat [Name folder; err] ;;;
          eachFolder srv rest items
      | None => eachFolder srv rest (append items (fst r))
      end
  end.

Definition getItems (srv : Service) (rootFolderID : string)
  : M (Result (slice Item)) :=
  let query := foldersQuery rootFolderID in
  folderList <- Files_List w srv query folderFields ;;
  match folderList with
  | Err err => ret (Err (Sprintf "error listing folders: %v" [err]))
  | OK folders =>
      items <- eachFolder srv folders None ;;
      ret (OK items)
  end.

Definition errorJSON (msg : string) : JSON :=
  responseJSON {| Items := None; Error := msg |}.

Definition Handler (rw : ResponseWriter) (r : Request) : M ResponseWriter :=
  let rw := corsHeaders rw in
  if String.eqb (Method r) "OPTIONS" then ret (WriteHeader 200 rw)
  else if negb (String.eqb (Method r) "GET") then
    ret (Encode (errorJSON "Method not allowed") (WriteHeader 405 rw))
  else
    let rootFolderID := QueryGet r "folderId" in
    let rootFolderID :=
      if String.eqb rootFolderID "" then Getenv w "GOOGLE_DRIVE_FOLDER_ID"
      else rootFolderID in
    if String.eqb rootFolderID "" then
      ret (Encode (errorJSON "Folder ID is required") (WriteHeader 400 rw))
    else
      let credentialsJSON := Getenv w "GOOGLE_CREDENTIALS_JSON" in
      if String.eqb credentialsJSON "" then
        ret (Encode (errorJSON "Google credentials not configured")
               (WriteHeader 500 rw))
      else
        srv <- drive_NewService w credentialsJSON ;;
        match srv with
        | Err err =>
            ret (Encode
                   (errorJSON
                      (Sprintf "Unable to create Drive client: %v" [err]))
                   (WriteHeader 500 rw))
        | OK srv =>
            items <- getItems srv rootFolderID ;;
            match items with
            | Err err => ret (Encode (errorJSON err) (WriteHeader 500 rw))
            | OK items =>
                ret (Encode (responseJSON {| Items := items; Error := "" |})
                       rw)
            end
        end.
End Program.

End Extended.

(** ** The earlier handler: images and [metadata.txt] only

    It writes the error document before it calls [WriteHeader]. *)

Module Basic.

Record Item := {
  Title : string;
  Subtitle : string;
  Description : string;
  Code : string;
  ImageURLs : slice string
}.

(** The four metadata fields of an item. *)
Definition fields (it : Item) : list string :=
  [Title it; Subtitle it; Description it; Code it].

Record Response := { Items : slice Item; Error : string }.

Definition itemJSON (it : Item) : JSON :=
  JObject [ ("title", JString (Title it));
            ("subtitle", JString (Subtitle it));
            ("description", JString (Description it));
            ("code", JString (Code it));
            ("imageUrls", jsonStrings (ImageURLs it)) ].

Definition responseJSON (r : Response) : JSON :=
  JObject
    (("items", match Items r with
               | None => JNull
               | Some l => JArray (map itemJSON l)
               end)
     :: (if String.eqb (Error r) "" then []
         else [("error", JString (Error r))])).

Definition isMetadataName (name : string) : bool :=
  String.eqb name "metadata.txt".

Definition addImage (item : Item) (url : string) : Item :=
  {| Title := Title item; Subtitle := Subtitle item;
     Description := Description item; Code := Code item;
     ImageURLs := append (ImageURLs item) url |}.

Definition setMetadata (item : Item) (metadata : gmap string string) : Item :=
  {| Title := at_key metadata "title";
     Subtitle := at_key metadata "subtitle";
     Description := at_key metadata "description";
     Code := at_key metadata "code";
     ImageURLs := ImageURLs item |}.

Record Walk := { item : Item; metadataFileID : string }.

Definition visit (st : Walk) (file : File) : Walk :=
  if isMetadataName (Name file) then
    {| item := item st; metadataFileID := Id file |}
  else
    let item1 :=
      if isImage (MimeType file)
      then addImage (item st) (getImageURL (Id file)) else item st in
    {| item := item1; metadataFileID := metadataFileID st |}.

Definition emptyItem : Item :=
  {| Title := ""; Subtitle := ""; Description := ""; Code := "";
     ImageURLs := Some [] |}.

Definition walkFiles (files : list File) : Walk :=
  fold_left visit files {| item := emptyItem; metadataFileID := "" |}.

Section Program.
Variable MapToLower : string -> string.
Variable w : World.

Definition getEnv (key defaultValue : string) : string :=
  let value := Getenv w key in
  if String.eqb value "" then defaultValue else value.

Definition readMetadata (srv : Service) (fileID : string)
  : M (Result (gmap string string)) :=
  body <- Files_Download w srv fileID ;;
  match body with
  | Err err => ret (Err err)
  | OK body => ret (OK (parseMetadata MapToLower body))
  end.

Definition processItemFolder (srv : Service) (folderID folderName : string)
  : M (Item * option string) :=
  let query := filesQuery folderID in
  fileList <- Files_List w srv query fileFields ;;
  match fileList with
  | Err err =>
      ret (emptyItem,
           Some (Sprintf "error listing files in folder: %v" [err]))
  | OK files =>
      let st := walkFiles files in
      if negb (String.eqb (metadataFileID st) "") then
        metadata <- readMetadata srv (metadataFileID st) ;;
        match metadata with
        | Err err =>
            ret (item st, Some (Sprintf "error reading metadata: %v" [err]))
        | OK metadata => ret (setMetadata (item st) metadata, None)
        end
      else ret (item st, None)
  end.

Fixpoint eachFolder (srv : Service) (folders : list File)
    (items : slice Item) : M (slice Item) :=
  match folders with
  | [] => ret items
  | folder :: rest =>
      r <- processItemFolder srv (Id folder) (Name folder) ;;
      match snd r with
      | Some err =>
          Printf processErrorFormat [Name folder; err] ;;;
          eachFolder srv rest items
      | None => eachFolder srv rest (append items (fst r))
      end
  end.

Definition getItems (srv : Service) (rootFolderID : string)
  : M (Result (slice Item)) :=
  let query := foldersQuery rootFolderID in
  folderList <- Files_List w srv query folderFields ;;
  match folderList with
  | Err err => ret (Err (Sprintf "error listing folders: %v" [err]))
  | OK folders =>
      items <- eachFolder srv folders None ;;
      ret (OK items)
  end.

Definition errorJSON (msg : string) : JSON :=
  responseJSON {| Items := None; Error := msg |}.

Definition Handler (rw : ResponseWriter) (r : Request) : M ResponseWriter :=
  let rw := corsHeaders rw in
  if String.eqb (Method r) "OPTIONS" then ret (WriteHeader 200 rw)
  else if negb (String.eqb (Method r) "GET") then
    ret (WriteHeader 405 (Encode (errorJSON "Method not allowed") rw))
  else
    let rootFolderID := QueryGet r "folderId" in
    let rootFolderID :=
      if String.eqb rootFolderID "" then getEnv "GOOGLE_DRIVE_FOLDER_ID" ""
      else rootFolderID in
    if String.eqb rootFolderID "" then
      ret (WriteHeader 400 (Encode (errorJSON "Folder ID is required") rw))
    else
      let credentialsJSON := getEnv "GOOGLE_CREDENTIALS_JSON" "" in
      if String.eqb credentialsJSON "" then
        ret (WriteHeader 500
               (Encode (errorJSON "Google credentials not configured") rw))
      else
        srv <- drive_NewService w credentialsJSON ;;
        match srv with
        | Err err =>
            ret (WriteHeader 500
                   (Encode
                      (errorJSON
                         (Sprintf "Unable to create Drive client: %v" [err]))
                      rw))
        | OK srv =>
            items <- getItems srv rootFolderID ;;
            match items with
            | Err err => ret (WriteHeader 500 (Encode (errorJSON err) rw))
            | OK items =>
                ret (Encode (responseJSON {| Items := items; Error := "" |})
                       rw)
            end
        end.
End Program.

End Basic.

(** ** The metadata parser as the specification words it *)

Module Spec.

(** The text is split into lines. *)
Fixpoint linesOf (s : string) : list string :=
  match s with
  | "" => [""]
  | String c r =>
      if Ascii.eqb c newline then "" :: linesOf r
      else match linesOf r with
           | l :: ls => String c l :: ls
           | [] => [String c ""]
           end
  end.

Fixpoint hasByte (c : ascii) (s : string) : bool :=
  match s with
  | "" => false
  | String d r => Ascii.eqb d c || hasByte c r
  end.

(** The text before the first [c] (all of it when there is none). *)
Fixpoint beforeFirst (c : ascii) (s : string) : string :=
  match s with
  | "" => ""
  | String d r => if Ascii.eqb d c then "" else String d (beforeFirst c r)
  end.

(** The text after the first [c] (nothing when there is none). *)
Fixpoint afterFirst (c : ascii) (s : string) : string :=
  match s with
  | "" => ""
  | String d r => if Ascii.eqb d c then r else afterFirst c r
  end.

Section Words.
Variable MapToLower : string -> string.

(** What one line contributes: nothing when it is blank after trimming
    or has no colon, else the lower-cased trimmed key and the trimmed
    value around its first colon. *)
Definition entry (line : string) : option (string * string) :=
  let t := TrimSpace line in
  if String.eqb t "" then None
  else if negb (hasByte colon t) then None
  else Some (ToLower MapToLower (TrimSpace (beforeFirst colon t)),
             TrimSpace (afterFirst colon t)).

Definition entries (content : string) : list (string * string) :=
  omap entry (linesOf content).
End Words.

(** Last occurrence wins. *)
Fixpoint lastValue (key : string) (l : list (string * string))
  : option string :=
  match l with
  | [] => None
  | (k, v) :: rest =>
      match lastValue key rest with
      | Some v' => Some v'
      | None => if String.eqb k key then Some v else None
      end
  end.

(** The files of a listing that are not metadata-named and whose MIME
    type is in the given set, in listing order, and their URLs. *)
Definition mediaFiles (reserved inSet : string -> bool) (files : list File)
  : list File :=
  List.filter (fun f => negb (reserved (Name f)) && inSet (MimeType f))
    files.

Definition urlsOf (template : string -> string) (files : list File)
  : list string :=
  map (fun f => template (Id f)) files.

(** No file of the listing bears a reserved metadata name. *)
Definition noMetadataFile (reserved : string -> bool) (files : list File)
  : bool :=
  forallb (fun f => negb (reserved (Name f))) files.

End Spec.

(** ** Notions used in the statements *)

Definition specExample : string :=
  "title: A" +:+ String newline "subtitle: B" +:+ String newline "title: C".

Section Outcomes.
Variable MapToLower : string -> string.
Variable w : World.
Variable srv : Service.

(** What [processItemFolder] returns for a child folder. *)
Definition ext_outcome (folder : File) : Extended.Item * option string :=
  value (Extended.processItemFolder MapToLower w srv
           (Id folder) (Name folder)).

Definition ext_succeeded (folder : File) : bool :=
  match snd (ext_outcome folder) with
  | None => true
  | Some _ => false
  end.

(** The items of the folders processed without error, in listing order. *)
Definition ext_successes (folders : list File) : list Extended.Item :=
  map (fun folder => fst (ext_outcome folder))
    (List.filter ext_succeeded folders).

(** An item that comes from a fully successful run on [folder]: the
    files were listed, its URLs are the classified media of that listing,
    and its fields are empty when the listing has no metadata source and
    are otherwise read from the parsed metadata. *)
Definition ext_complete (folder : File) (it : Extended.Item) : Prop :=
  ext_outcome folder = (it, None)
  /\ exists files : list File,
      FilesList w srv (filesQuery (Id folder)) fileFields = OK files
      /\ Extended.ImageURLs it
         = Some (Spec.urlsOf getImageURL
                   (Spec.mediaFiles Extended.isMetadataName isImage files))
      /\ Extended.VideoURLs it
         = Some (Spec.urlsOf Extended.getVideoURL
                   (Spec.mediaFiles Extended.isMetadataName
                      Extended.isVideo files))
      /\ let st := Extended.walkFiles files in
         (Extended.metadataFileID st = ""
          /\ Extended.fields it = [""; ""; ""; ""])
         \/ (exists metadata : gmap string string,
                value (Extended.readMetadata MapToLower w srv
                         (Extended.metadataFileID st)
                         (Extended.metadataFileName st)) = OK metadata
                /\ Extended.fields it
                   = [at_key metadata "title"; at_key metadata "subtitle";
                      at_key metadata "description";
                      at_key metadata "code"]).

Definition bas_outcome (folder : File) : Basic.Item * option string :=
  value (Basic.processItemFolder MapToLower w srv (Id folder) (Name folder)).

Definition bas_succeeded (folder : File) : bool :=
  match snd (bas_outcome folder) with
  | None => true
  | Some _ => false
  end.

Definition bas_successes (folders : list File) : list Basic.Item :=
  map (fun folder => fst (bas_outcome folder))
    (List.filter bas_succeeded folders).
End Outcomes.

(** The root folder id the handlers settle on: the query parameter, else
    the environment default. *)
Definition rootFolderOf (w : World) (r : Request) : string :=
  if String.eqb (QueryGet r "folderId") ""
  then Getenv w "GOOGLE_DRIVE_FOLDER_ID" else QueryGet r "folderId".

(** The document both handlers write when no folder id is given. *)
Definition folderIdRequired : JSON :=
  JObject [("items", JNull); ("error", JString "Folder ID is required")].

(** An item of [api/index.go] seen as an item of the earlier handler. *)
Definition forget (it : Extended.Item) : Basic.Item :=
  {| Basic.Title := Extended.Title it;
     Basic.Subtitle := Extended.Subtitle it;
     Basic.Description := Extended.Description it;
     Basic.Code := Extended.Code it;
     Basic.ImageURLs := Extended.ImageURLs it |}.

Definition forgetAll (items : slice Extended.Item) : slice Basic.Item :=
  option_map (map forget) items.

(** A JSON object without its [videoUrls] member, and a response document
    whose items are so reduced. *)
Definition withoutVideoUrls (j : JSON) : JSON :=
  match j with
  | JObject members =>
      JObject
        (List.filter (fun m => negb (String.eqb (fst m) "videoUrls")) members)
  | _ => j
  end.

Definition itemsWithoutVideoUrls (j : JSON) : JSON :=
  match j with
  | JObject ((k, JArray l) :: rest) =>
      if String.eqb k "items"
      then JObject ((k, JArray (map withoutVideoUrls l)) :: rest) else j
  | _ => j
  end.

(** A file that is neither a video nor named [metadata.docx]. *)
Definition plainFile (f : File) : bool :=
  negb (Extended.isVideo (MimeType f))
  && negb (String.eqb (Name f) "metadata.docx").

(** A world all of whose file listings are plain. *)
Definition plainWorld (w : World) : Prop :=
  forall (srv : Service) (q : string) (files : list File),
    FilesList w srv q fileFields = OK files ->
    forallb plainFile files = true.

(** The loop states of the two handlers agree. *)
Definition sameWalk (e : Extended.Walk) (b : Basic.Walk) : Prop :=
  Basic.item b = forget (Extended.item e)
  /\ Basic.metadataFileID b = Extended.metadataFileID e
  /\ (Extended.metadataFileName e = ""
      \/ Extended.metadataFileName e = "metadata.txt").

(** ** Concrete worlds and requests *)

Module Examples.

Definition file (id name mime : string) : File :=
  {| Id := id; Name := name; MimeType := mime |}.

Definition folderType : string := "application/vnd.google-apps.folder".

(** A root folder [root] with three child folders: [f1] holds a PNG, an
    MP4 and a PDF; the listing of [f2] fails; [f3] holds two files named
    [metadata.txt] (the second one typed as a PNG) around a JPEG. *)
Definition children : list File :=
  [ file "f1" "one" folderType; file "f2" "two" folderType;
    file "f3" "three" folderType ].

Definition filesOfOne : list File :=
  [ file "a" "photo.png" "image/png"; file "b" "clip.mp4" "video/mp4";
    file "c" "notes.pdf" "application/pdf" ].

Definition filesOfThree : list File :=
  [ file "m1" "metadata.txt" "text/plain";
    file "d" "cover.jpg" "image/jpeg";
    file "m2" "metadata.txt" "image/png" ].

Definition listing (q : string) : Result (list File) :=
  if String.eqb q (foldersQuery "root") then OK children
  else if String.eqb q (filesQuery "f1") then OK filesOfOne
  else if String.eqb q (filesQuery "f3") then OK filesOfThree
  else Err "backend error".

Definition contents (fileID : string) : Result string :=
  if String.eqb fileID "m1" then OK "title: Old"
  else if String.eqb fileID "m2" then OK specExample
  else Err "not found".

Definition environment (rootFolderID : string) (key : string) : string :=
  if String.eqb key "GOOGLE_DRIVE_FOLDER_ID" then rootFolderID
  else if String.eqb key "GOOGLE_CREDENTIALS_JSON" then "{}"
  else "".

(** The world in which the environment names [rootFolderID] as the root
    folder. *)
Definition world (rootFolderID : string) : World :=
  {| Getenv := environment rootFolderID;
     NewService := fun creds => OK {| credentials := creds |};
     FilesList := fun _ q _ => listing q;
     Download := fun _ fileID => contents fileID;
     WriteFile := fun _ _ => None;
     Pandoc := fun _ data => OK data |}.

Definition service : Service := {| credentials := "{}" |}.

Definition request (method : string) : Request :=
  {| Method := method; QueryGet := fun _ => "" |}.

End Examples.

(** ** Notions used in the further properties *)

Definition isFilesList (e : Event) : bool :=
  match e with
  | EvFilesList _ _ => true
  | _ => false
  end.

Definition isPrintf (e : Event) : bool :=
  match e with
  | EvPrintf _ => true
  | _ => false
  end.

(** A call to the file system or to pandoc. *)
Definition touchesFiles (e : Event) : bool :=
  match e with
  | EvWriteFile _ _ | EvPandoc _ | EvRemove _ => true
  | _ => false
  end.

(** The temporary files written successfully and not removed since, after
    the calls [l], starting from the files [opened]. *)
Fixpoint leftOpen (w : World) (opened : list string) (l : list Event)
  : list string :=
  match l with
  | [] => opened
  | EvWriteFile path data :: rest =>
      leftOpen w
        (match WriteFile w path data with
         | None => path :: opened
         | Some _ => opened
         end) rest
  | EvRemove path :: rest =>
      leftOpen w (List.filter (fun p => negb (String.eqb p path)) opened) rest
  | _ :: rest => leftOpen w opened rest
  end.

(** [strings.TrimRightFunc(s, unicode.IsSpace)] on a string. *)
Definition TrimRightSpace (s : string) : string :=
  ofBytes (trimRight (toBytes s)).

(** The header every response carries. *)
Definition corsHeader : gmap string string :=
  {[ "Content-Type" := "application/json";
     "Access-Control-Allow-Origin" := "*";
     "Access-Control-Allow-Methods" := "GET, OPTIONS";
     "Access-Control-Allow-Headers" := "Content-Type" ]}.

(** The error document of a response. *)
Definition errorDocument (msg : string) : JSON :=
  JObject [("items", JNull); ("error", JString msg)].

(** The path of the temporary copy of a [.docx] metadata file. *)
Definition tmpFileOf (fileID : string) : string :=
  "/tmp/metadata_" +:+ fileID +:+ ".docx".

(** The diagnostic line [getItems] prints for a folder that failed. *)
Definition diagnosticOf (folder : File) (err : string) : Event :=
  EvPrintf ("Error processing folder " +:+ Name folder +:+ ": " +:+ err
            +:+ String newline "").

(** Worlds for the error paths: one whose Drive client cannot be built,
    and one whose only item folder holds a [metadata.docx] that pandoc
    converts ([pandocWorks]) or rejects. *)
Module Failures.

Definition noClient : World :=
  {| Getenv := Examples.environment "root";
     NewService := fun _ => Err "bad key";
     FilesList := fun _ q _ => Examples.listing q;
     Download := fun _ fileID => Examples.contents fileID;
     WriteFile := fun _ _ => None;
     Pandoc := fun _ data => OK data |}.

Definition noCredentials : World :=
  {| Getenv := fun key =>
                 if String.eqb key "GOOGLE_DRIVE_FOLDER_ID" then "root" else "";
     NewService := fun creds => OK {| credentials := creds |};
     FilesList := fun _ q _ => Examples.listing q;
     Download := fun _ fileID => Examples.contents fileID;
     WriteFile := fun _ _ => None;
     Pandoc := fun _ data => OK data |}.

Definition docxFiles : list File :=
  [ Examples.file "p" "pic.gif" "image/gif";
    Examples.file "x" "metadata.docx"
      "application/vnd.openxmlformats-officedocument.wordprocessingml.document" ].

Definition docxListing (q : string) : Result (list File) :=
  if String.eqb q (foldersQuery "root")
  then OK [Examples.file "g" "doc" Examples.folderType]
  else if String.eqb q (filesQuery "g") then OK docxFiles
  else Err "backend error".

Definition docxWorld (pandocWorks : bool) : World :=
  {| Getenv := Examples.environment "root";
     NewService := fun creds => OK {| credentials := creds |};
     FilesList := fun _ q _ => docxListing q;
     Download := fun _ fileID =>
                   if String.eqb fileID "x" then OK "PK-bytes"
                   else Err "not found";
     WriteFile := fun _ _ => None;
     Pandoc := fun _ _ =>
                 if pandocWorks then OK "Title: Doc" else Err "exit status 1" |}.

(** The world of [docxWorld] on a disk that cannot be written. *)
Definition diskFull : World :=
  {| Getenv := Examples.environment "root";
     NewService := fun creds => OK {| credentials := creds |};
     FilesList := fun _ q _ => docxListing q;
     Download := fun _ fileID =>
                   if String.eqb fileID "x" then OK "PK-bytes"
                   else Err "not found";
     WriteFile := fun _ _ => Some "no space left on device";
     Pandoc := fun _ data => OK data |}.

(** A world whose folder [h] lists a [metadata.txt] that cannot be
    downloaded. *)
Definition lostFile : World :=
  {| Getenv := Examples.environment "root";
     NewService := fun creds => OK {| credentials := creds |};
     FilesList := fun _ q _ =>
                    if String.eqb q (filesQuery "h")
                    then OK [Examples.file "gone" "metadata.txt" "text/plain"]
                    else Err "backend error";
     Download := fun _ _ => Err "not found";
     WriteFile := fun _ _ => None;
     Pandoc := fun _ data => OK data |}.

End Failures.

(** * Properties *)

(** Case analysis on a Go result, and on a MIME type against the literals
    it is compared with. *)
Ltac case_result :=
  match goal with
  | |- context [match ?x with OK _ => _ | Err _ => _ end] => destruct x
  end.

Ltac case_mime m :=
  repeat match goal with
         | |- context [String.eqb m ?t] =>
             destruct (String.eqb_spec m t) as [->|?]; [reflexivity|]
         end.

(** ** Strings *)

Lemma Cut_first (s : string) (c : ascii) :
  Cut s c = if Spec.hasByte c s
            then Some (Spec.beforeFirst c s, Spec.afterFirst c s)
            else None.
Proof.
  induction s as [|d r IH]; simpl; [reflexivity|].
  destruct (Ascii.eqb d c); simpl; [reflexivity|].
  rewrite IH. destruct (Spec.hasByte c r); reflexivity.
Qed.

Lemma genSplit_linesOf (s : string) :
  forall n, Count s newline <= n -> genSplit n s newline = Spec.linesOf s.
Proof.
  induction s as [|c r IH]; intros n Hn.
  - destruct n; reflexivity.
  - simpl in Hn. simpl Spec.linesOf.
    destruct (Ascii.eqb c newline) eqn:E.
    + destruct n as [|k]; [simpl in Hn; lia|].
      simpl. rewrite E. f_equal. apply IH. simpl in Hn. lia.
    + simpl in Hn. rewrite <- (IH n Hn).
      destruct n as [|k]; simpl; rewrite ?E; [reflexivity|].
      destruct (Cut r newline) as [[a b]|]; reflexivity.
Qed.

Lemma Split_linesOf (s : string) : Split s newline = Spec.linesOf s.
Proof. apply genSplit_linesOf. reflexivity. Qed.

Lemma SplitN_two (s : string) (c : ascii) :
  SplitN s c 2 = if Spec.hasByte c s
                 then [Spec.beforeFirst c s; Spec.afterFirst c s]
                 else [s].
Proof.
  unfold SplitN. simpl. rewrite Cut_first.
  destruct (Spec.hasByte c s); reflexivity.
Qed.

(** The fuel of the two white-space scans suffices: the scan from the left
    stops at text with no leading white-space rune, the scan from the right
    at text with no trailing one. *)

Lemma stripPrefix_length (p l l' : list ascii) :
  stripPrefix p l = Some l' -> length l = length p + length l'.
Proof.
  revert l. induction p as [|c p IH]; intros l H; simpl in H.
  - now injection H as ->.
  - destruct l as [|d l0]; [discriminate|].
    destruct (Ascii.eqb c d); [|discriminate].
    simpl. now rewrite (IH _ H).
Qed.

Lemma stripSpace_shorter (dir : list ascii -> list ascii)
    (encs : list (list nat)) (l l' : list ascii) :
  Forall (fun e => 0 < length (dir (map byte e))) encs ->
  stripSpace dir encs l = Some l' -> length l' < length l.
Proof.
  induction 1 as [|e rest He _ IH]; simpl; [discriminate|].
  destruct (stripPrefix (dir (map byte e)) l) as [l0|] eqn:E; [|exact IH].
  intros [= <-]. apply stripPrefix_length in E. lia.
Qed.

Lemma trimFuel_done (dir : list ascii -> list ascii) :
  Forall (fun e => 0 < length (dir (map byte e))) spaceEncodings ->
  forall (fuel : nat) (l : list ascii),
    length l <= fuel ->
    stripSpace dir spaceEncodings (trimFuel dir fuel l) = None.
Proof.
  intros Hne fuel. induction fuel as [|k IH]; intros l Hl.
  - destruct l; [|simpl in Hl; lia]. cbn [trimFuel].
    destruct (stripSpace dir spaceEncodings []) as [l'|] eqn:E;
      [|reflexivity].
    apply (stripSpace_shorter _ _ _ _ Hne) in E. simpl in E. lia.
  - cbn [trimFuel].
    destruct (stripSpace dir spaceEncodings l) as [l'|] eqn:E; [|exact E].
    apply IH. apply (stripSpace_shorter _ _ _ _ Hne) in E. lia.
Qed.

Lemma spaceEncodings_nonempty (dir : list ascii -> list ascii) :
  (forall l, length (dir l) = length l) ->
  Forall (fun e => 0 < length (dir (map byte e))) spaceEncodings.
Proof.
  intros Hdir. unfold spaceEncodings.
  repeat (constructor; [rewrite Hdir; simpl; lia|]). constructor.
Qed.

Lemma trimLeft_done (l : list ascii) :
  stripSpace id spaceEncodings (trimLeft l) = None.
Proof.
  apply trimFuel_done; [|reflexivity].
  apply spaceEncodings_nonempty. reflexivity.
Qed.

Lemma trimRight_done (l : list ascii) :
  stripSpace (@rev ascii) spaceEncodings (rev (trimRight l)) = None.
Proof.
  unfold trimRight. rewrite rev_involutive.
  apply trimFuel_done; [|now rewrite length_rev].
  apply spaceEncodings_nonempty. intros l0. apply length_rev.
Qed.

(** ** The metadata parser *)

Section ParserFacts.
Variable MapToLower : string -> string.

Lemma parseLine_entry (m : gmap string string) (line : string) :
  parseLine MapToLower m line =
    match Spec.entry MapToLower line with
    | Some (k, v) => <[k := v]> m
    | None => m
    end.
Proof.
  unfold parseLine, Spec.entry.
  destruct (String.eqb (TrimSpace line) ""); [reflexivity|].
  rewrite SplitN_two.
  destruct (Spec.hasByte colon (TrimSpace line)); reflexivity.
Qed.

Lemma fold_parseLine_lookup (lines : list string) :
  forall (m : gmap string string) (key : string),
    fold_left (parseLine MapToLower) lines m !! key =
      match Spec.lastValue key (omap (Spec.entry MapToLower) lines) with
      | Some v => Some v
      | None => m !! key
      end.
Proof.
  induction lines as [|line rest IH]; intros m key; [reflexivity|].
  cbn [fold_left omap list_omap]. rewrite parseLine_entry.
  destruct (Spec.entry MapToLower line) as [[k v]|]; rewrite IH; [|reflexivity].
  cbn [Spec.lastValue].
  destruct (Spec.lastValue key (omap (Spec.entry MapToLower) rest));
    [reflexivity|].
  destruct (String.eqb k key) eqn:E.
  - apply String.eqb_eq in E. subst. apply lookup_insert_eq.
  - apply String.eqb_neq in E. rewrite lookup_insert_ne by exact E.
    reflexivity.
Qed.
End ParserFacts.

(** C1. For every input text the mapping returned by [parseMetadata] holds,
    for each key, the value of the last line that contributes that key,
    where a line contributes nothing when it is blank after trimming or has
    no colon, and otherwise contributes the lower-cased trimmed text before
    its first colon mapped to the trimmed text after it. For the text
    "title: A / subtitle: B / title: C" (three lines) the mapping is
    title -> C, subtitle -> B. [parseMetadata] is a total function: it
    returns a mapping for every text. *)
Theorem parseMetadata_last_line_wins (MapToLower : string -> string) :
  (forall content key : string,
      parseMetadata MapToLower content !! key =
        Spec.lastValue key (Spec.entries MapToLower content))
  /\ parseMetadata MapToLower specExample
     = {[ "title" := "C"; "subtitle" := "B" ]}.
Proof.
  split.
  - intros content key. unfold parseMetadata, Spec.entries.
    rewrite Split_linesOf, fold_parseLine_lookup, lookup_empty.
    destruct (Spec.lastValue key _); reflexivity.
  - vm_compute. reflexivity.
Qed.

(** ** URL templates and MIME sets *)

Lemma append_empty (s : string) : s +:+ "" = s.
Proof.
  induction s as [|c r IH]; [reflexivity|].
  change (String c (r +:+ "") = String c r). now rewrite IH.
Qed.

(** C7. The image URL of a file id is the fixed text
    https://drive.google.com/uc?export=view&id= followed by the id, and the
    video URL is https://drive.google.com/file/d/ followed by the id and
    /preview; both are functions of the id alone. For the ids abc123 and
    xyz they are the two URLs the specification quotes. *)
Theorem url_templates :
  (forall fileID : string,
      getImageURL fileID
      = "https://drive.google.com/uc?export=view&id=" +:+ fileID
      /\ Extended.getVideoURL fileID
         = "https://drive.google.com/file/d/" +:+ fileID +:+ "/preview")
  /\ getImageURL "abc123"
     = "https://drive.google.com/uc?export=view&id=abc123"
  /\ Extended.getVideoURL "xyz"
     = "https://drive.google.com/file/d/xyz/preview".
Proof.
  split; [|split; reflexivity].
  intros fileID. unfold getImageURL, Extended.getVideoURL. simpl.
  now rewrite append_empty.
Qed.

Lemma image_is_not_video (mimeType : string) :
  isImage mimeType && Extended.isVideo mimeType = false.
Proof.
  unfold isImage. cbn [existsb]. case_mime mimeType. reflexivity.
Qed.

(** C10. No MIME type is both an image type and a video type, so one step
    of the file loop of [api/index.go] leaves [imageUrls] or [videoUrls] as
    it was: a file is added to at most one of them. *)
Theorem image_and_video_sets_disjoint :
  (forall mimeType : string,
      isImage mimeType && Extended.isVideo mimeType = false)
  /\ (forall (st : Extended.Walk) (file : File),
         Extended.ImageURLs (Extended.item (Extended.visit st file))
         = Extended.ImageURLs (Extended.item st)
         \/ Extended.VideoURLs (Extended.item (Extended.visit st file))
            = Extended.VideoURLs (Extended.item st)).
Proof.
  split; [exact image_is_not_video|].
  intros st file. unfold Extended.visit.
  destruct (Extended.isMetadataName (Name file)); [left; reflexivity|].
  pose proof (image_is_not_video (MimeType file)) as H.
  destruct (isImage (MimeType file)); simpl in H.
  - rewrite H. right. reflexivity.
  - left. destruct (Extended.isVideo (MimeType file)); reflexivity.
Qed.

(** ** The loop over the files of an item folder *)

Lemma ext_visit_images (st : Extended.Walk) (f : File) (li : list string) :
  Extended.ImageURLs (Extended.item st) = Some li ->
  Extended.ImageURLs (Extended.item (Extended.visit st f))
  = Some (li ++ Spec.urlsOf getImageURL
                  (Spec.mediaFiles Extended.isMetadataName isImage [f])).
Proof.
  intros Hi. unfold Extended.visit, Spec.mediaFiles. cbn [List.filter].
  destruct (Extended.isMetadataName (Name f)); cbn [negb andb].
  - cbn. now rewrite app_nil_r.
  - destruct (isImage (MimeType f)), (Extended.isVideo (MimeType f)); cbn;
      unfold elems; rewrite Hi, ?app_nil_r; reflexivity.
Qed.

Lemma ext_visit_videos (st : Extended.Walk) (f : File) (lv : list string) :
  Extended.VideoURLs (Extended.item st) = Some lv ->
  Extended.VideoURLs (Extended.item (Extended.visit st f))
  = Some (lv ++ Spec.urlsOf Extended.getVideoURL
                  (Spec.mediaFiles Extended.isMetadataName Extended.isVideo
                     [f])).
Proof.
  intros Hv. unfold Extended.visit, Spec.mediaFiles. cbn [List.filter].
  destruct (Extended.isMetadataName (Name f)); cbn [negb andb].
  - cbn. now rewrite app_nil_r.
  - destruct (isImage (MimeType f)), (Extended.isVideo (MimeType f)); cbn;
      unfold elems; rewrite Hv, ?app_nil_r; reflexivity.
Qed.

Lemma mediaFiles_cons (reserved inSet : string -> bool) (f : File)
    (rest : list File) :
  Spec.mediaFiles reserved inSet (f :: rest)
  = Spec.mediaFiles reserved inSet [f] ++ Spec.mediaFiles reserved inSet rest.
Proof.
  unfold Spec.mediaFiles. cbn [List.filter].
  destruct (negb (reserved (Name f)) && inSet (MimeType f)); reflexivity.
Qed.

Lemma urlsOf_app (template : string -> string) (l1 l2 : list File) :
  Spec.urlsOf template (l1 ++ l2)
  = Spec.urlsOf template l1 ++ Spec.urlsOf template l2.
Proof. apply map_app. Qed.

Lemma ext_walk_urls (files : list File) :
  forall (st : Extended.Walk) (li lv : list string),
    Extended.ImageURLs (Extended.item st) = Some li ->
    Extended.VideoURLs (Extended.item st) = Some lv ->
    Extended.ImageURLs (Extended.item (fold_left Extended.visit files st))
    = Some (li ++ Spec.urlsOf getImageURL
                    (Spec.mediaFiles Extended.isMetadataName isImage files))
    /\ Extended.VideoURLs (Extended.item (fold_left Extended.visit files st))
       = Some (lv ++ Spec.urlsOf Extended.getVideoURL
                       (Spec.mediaFiles Extended.isMetadataName
                          Extended.isVideo files)).
Proof.
  induction files as [|f rest IH]; intros st li lv Hi Hv.
  - simpl. now rewrite !app_nil_r.
  - cbn [fold_left].
    rewrite (mediaFiles_cons _ isImage), (mediaFiles_cons _ Extended.isVideo).
    rewrite !urlsOf_app, !app_assoc.
    apply IH; [now apply ext_visit_images | now apply ext_visit_videos].
Qed.

Lemma ext_walk_fields (files : list File) :
  forall st : Extended.Walk,
    Extended.fields (Extended.item (fold_left Extended.visit files st))
    = Extended.fields (Extended.item st).
Proof.
  induction files as [|f rest IH]; intros st; [reflexivity|].
  cbn [fold_left]. rewrite IH. unfold Extended.visit.
  destruct (Extended.isMetadataName (Name f)); [reflexivity|].
  destruct (isImage (MimeType f)), (Extended.isVideo (MimeType f));
    reflexivity.
Qed.

Lemma ext_walk_no_metadata (files : list File) :
  forall st : Extended.Walk,
    Spec.noMetadataFile Extended.isMetadataName files = true ->
    Extended.metadataFileID (fold_left Extended.visit files st)
    = Extended.metadataFileID st
    /\ Extended.metadataFileName (fold_left Extended.visit files st)
       = Extended.metadataFileName st.
Proof.
  induction files as [|f rest IH]; intros st H; [split; reflexivity|].
  cbn [Spec.noMetadataFile forallb] in H.
  apply andb_true_iff in H as [Hf Hrest]. cbn [fold_left].
  destruct (IH (Extended.visit st f) Hrest) as [E1 E2]. rewrite E1, E2.
  unfold Extended.visit. apply negb_true_iff in Hf. rewrite Hf.
  split; reflexivity.
Qed.

Lemma ext_walk_last_metadata (pre post : list File) (f : File)
    (st : Extended.Walk) :
  Extended.isMetadataName (Name f) = true ->
  Spec.noMetadataFile Extended.isMetadataName post = true ->
  Extended.metadataFileID (fold_left Extended.visit (pre ++ f :: post) st)
  = Id f
  /\ Extended.metadataFileName
       (fold_left Extended.visit (pre ++ f :: post) st) = Name f.
Proof.
  intros Hf Hpost. rewrite fold_left_app. cbn [fold_left].
  destruct (ext_walk_no_metadata post
              (Extended.visit (fold_left Extended.visit pre st) f) Hpost)
    as [E1 E2].
  rewrite E1, E2. unfold Extended.visit. rewrite Hf. split; reflexivity.
Qed.

Lemma bas_visit_images (st : Basic.Walk) (f : File) (li : list string) :
  Basic.ImageURLs (Basic.item st) = Some li ->
  Basic.ImageURLs (Basic.item (Basic.visit st f))
  = Some (li ++ Spec.urlsOf getImageURL
                  (Spec.mediaFiles Basic.isMetadataName isImage [f])).
Proof.
  intros Hi. unfold Basic.visit, Spec.mediaFiles. cbn [List.filter].
  destruct (Basic.isMetadataName (Name f)); cbn [negb andb].
  - cbn. now rewrite app_nil_r.
  - destruct (isImage (MimeType f)); cbn;
      unfold elems; rewrite Hi, ?app_nil_r; reflexivity.
Qed.

Lemma bas_walk_urls (files : list File) :
  forall (st : Basic.Walk) (li : list string),
    Basic.ImageURLs (Basic.item st) = Some li ->
    Basic.ImageURLs (Basic.item (fold_left Basic.visit files st))
    = Some (li ++ Spec.urlsOf getImageURL
                    (Spec.mediaFiles Basic.isMetadataName isImage files)).
Proof.
  induction files as [|f rest IH]; intros st li Hi.
  - simpl. now rewrite app_nil_r.
  - cbn [fold_left]. rewrite (mediaFiles_cons _ isImage).
    rewrite urlsOf_app, app_assoc. apply IH. now apply bas_visit_images.
Qed.

Lemma bas_walk_fields (files : list File) :
  forall st : Basic.Walk,
    Basic.fields (Basic.item (fold_left Basic.visit files st))
    = Basic.fields (Basic.item st).
Proof.
  induction files as [|f rest IH]; intros st; [reflexivity|].
  cbn [fold_left]. rewrite IH. unfold Basic.visit.
  destruct (Basic.isMetadataName (Name f)); [reflexivity|].
  destruct (isImage (MimeType f)); reflexivity.
Qed.

Lemma bas_walk_no_metadata (files : list File) :
  forall st : Basic.Walk,
    Spec.noMetadataFile Basic.isMetadataName files = true ->
    Basic.metadataFileID (fold_left Basic.visit files st)
    = Basic.metadataFileID st.
Proof.
  induction files as [|f rest IH]; intros st H; [reflexivity|].
  cbn [Spec.noMetadataFile forallb] in H.
  apply andb_true_iff in H as [Hf Hrest]. cbn [fold_left].
  rewrite (IH (Basic.visit st f) Hrest).
  unfold Basic.visit. apply negb_true_iff in Hf. now rewrite Hf.
Qed.

Lemma bas_walk_last_metadata (pre post : list File) (f : File)
    (st : Basic.Walk) :
  Basic.isMetadataName (Name f) = true ->
  Spec.noMetadataFile Basic.isMetadataName post = true ->
  Basic.metadataFileID (fold_left Basic.visit (pre ++ f :: post) st) = Id f.
Proof.
  intros Hf Hpost. rewrite fold_left_app. cbn [fold_left].
  rewrite (bas_walk_no_metadata post _ Hpost).
  unfold Basic.visit. now rewrite Hf.
Qed.

(** ** One item folder *)

Section ItemFolder.
Variable MapToLower : string -> string.
Variable w : World.
Variable srv : Service.

Lemma ext_process_listed (folderID folderName : string) (files : list File) :
  FilesList w srv (filesQuery folderID) fileFields = OK files ->
  Extended.processItemFolder MapToLower w srv folderID folderName =
    let st := Extended.walkFiles files in
    let listed := EvFilesList (filesQuery folderID) fileFields in
    if String.eqb (Extended.metadataFileID st) "" then
      ((Extended.item st, None), [listed])
    else
      let md := Extended.readMetadata MapToLower w srv
                  (Extended.metadataFileID st)
                  (Extended.metadataFileName st) in
      (match value md with
       | Err err =>
           (Extended.item st,
            Some (Sprintf "error reading metadata: %v" [err]))
       | OK metadata =>
           (Extended.setMetadata (Extended.item st) metadata, None)
       end, listed :: calls md).
Proof.
  intros H. unfold Extended.processItemFolder, Files_List, bind, emit, ret.
  rewrite H. cbv zeta.
  destruct (String.eqb (Extended.metadataFileID (Extended.walkFiles files)) "");
    cbn [negb]; [reflexivity|].
  destruct (Extended.readMetadata _ _ _ _ _) as [[md|err] l];
    cbn [value calls fst snd app]; rewrite !app_nil_r; reflexivity.
Qed.

Lemma ext_process_not_listed (folderID folderName err : string) :
  FilesList w srv (filesQuery folderID) fileFields = Err err ->
  Extended.processItemFolder MapToLower w srv folderID folderName =
    ((Extended.emptyItem,
      Some (Sprintf "error listing files in folder: %v" [err])),
     [EvFilesList (filesQuery folderID) fileFields]).
Proof.
  intros H. unfold Extended.processItemFolder, Files_List, bind, emit, ret.
  rewrite H. reflexivity.
Qed.

Lemma bas_process_listed (folderID folderName : string) (files : list File) :
  FilesList w srv (filesQuery folderID) fileFields = OK files ->
  Basic.processItemFolder MapToLower w srv folderID folderName =
    let st := Basic.walkFiles files in
    let listed := EvFilesList (filesQuery folderID) fileFields in
    if String.eqb (Basic.metadataFileID st) "" then
      ((Basic.item st, None), [listed])
    else
      let md := Basic.readMetadata MapToLower w srv
                  (Basic.metadataFileID st) in
      (match value md with
       | Err err =>
           (Basic.item st, Some (Sprintf "error reading metadata: %v" [err]))
       | OK metadata => (Basic.setMetadata (Basic.item st) metadata, None)
       end, listed :: calls md).
Proof.
  intros H. unfold Basic.processItemFolder, Files_List, bind, emit, ret.
  rewrite H. cbv zeta.
  destruct (String.eqb (Basic.metadataFileID (Basic.walkFiles files)) "");
    cbn [negb]; [reflexivity|].
  destruct (Basic.readMetadata _ _ _ _) as [[md|err] l];
    cbn [value calls fst snd app]; rewrite !app_nil_r; reflexivity.
Qed.

Lemma bas_process_not_listed (folderID folderName err : string) :
  FilesList w srv (filesQuery folderID) fileFields = Err err ->
  Basic.processItemFolder MapToLower w srv folderID folderName =
    ((Basic.emptyItem,
      Some (Sprintf "error listing files in folder: %v" [err])),
     [EvFilesList (filesQuery folderID) fileFields]).
Proof.
  intros H. unfold Basic.processItemFolder, Files_List, bind, emit, ret.
  rewrite H. reflexivity.
Qed.

(** Whatever happens to the metadata, the media URLs of the returned item
    are those of the file loop. *)
Lemma ext_process_urls (folderID folderName : string) (files : list File) :
  FilesList w srv (filesQuery folderID) fileFields = OK files ->
  let it := fst (value (Extended.processItemFolder MapToLower w srv
                          folderID folderName)) in
  Extended.ImageURLs it
  = Extended.ImageURLs (Extended.item (Extended.walkFiles files))
  /\ Extended.VideoURLs it
     = Extended.VideoURLs (Extended.item (Extended.walkFiles files)).
Proof.
  intros H. rewrite (ext_process_listed _ folderName _ H). cbv zeta.
  destruct (String.eqb _ ""); cbn [value fst]; [split; reflexivity|].
  case_result; split; reflexivity.
Qed.

Lemma bas_process_urls (folderID folderName : string) (files : list File) :
  FilesList w srv (filesQuery folderID) fileFields = OK files ->
  Basic.ImageURLs
    (fst (value (Basic.processItemFolder MapToLower w srv
                   folderID folderName)))
  = Basic.ImageURLs (Basic.item (Basic.walkFiles files)).
Proof.
  intros H. rewrite (bas_process_listed _ folderName _ H). cbv zeta.
  destruct (String.eqb _ ""); cbn [value fst]; [reflexivity|].
  case_result; reflexivity.
Qed.
End ItemFolder.

Lemma txt_name_reserved (name : string) :
  Basic.isMetadataName name = true -> Extended.isMetadataName name = true.
Proof.
  unfold Basic.isMetadataName, Extended.isMetadataName. intros ->. reflexivity.
Qed.

Lemma noMetadataFile_basic (files : list File) :
  Spec.noMetadataFile Extended.isMetadataName files = true ->
  Spec.noMetadataFile Basic.isMetadataName files = true.
Proof.
  unfold Spec.noMetadataFile. rewrite !forallb_forall. intros H f Hf.
  specialize (H f Hf). apply negb_true_iff in H. apply negb_true_iff.
  destruct (Basic.isMetadataName (Name f)) eqn:E; [|reflexivity].
  apply txt_name_reserved in E. congruence.
Qed.

Section Classification.
Variable MapToLower : string -> string.
Variable w : World.
Variable srv : Service.
Variables folderID folderName : string.
Variable files : list File.
Hypothesis listed : FilesList w srv (filesQuery folderID) fileFields = OK files.

Let ext := value (Extended.processItemFolder MapToLower w srv
                    folderID folderName).
Let bas := value (Basic.processItemFolder MapToLower w srv
                    folderID folderName).

Lemma ext_urls_classified :
  Extended.ImageURLs (fst ext)
  = Some (Spec.urlsOf getImageURL
            (Spec.mediaFiles Extended.isMetadataName isImage files))
  /\ Extended.VideoURLs (fst ext)
     = Some (Spec.urlsOf Extended.getVideoURL
               (Spec.mediaFiles Extended.isMetadataName Extended.isVideo
                  files)).
Proof.
  destruct (ext_process_urls MapToLower w srv folderID folderName files
              listed) as [E1 E2].
  subst ext. rewrite E1, E2. unfold Extended.walkFiles.
  apply (ext_walk_urls files _ [] []); reflexivity.
Qed.

Lemma bas_urls_classified :
  Basic.ImageURLs (fst bas)
  = Some (Spec.urlsOf getImageURL
            (Spec.mediaFiles Basic.isMetadataName isImage files)).
Proof.
  subst bas.
  rewrite (bas_process_urls MapToLower w srv folderID folderName files
             listed).
  unfold Basic.walkFiles. apply (bas_walk_urls files _ []). reflexivity.
Qed.

Lemma ext_no_metadata_no_error :
  Spec.noMetadataFile Extended.isMetadataName files = true ->
  snd ext = None /\ Extended.fields (fst ext) = [""; ""; ""; ""].
Proof.
  intros Hno. subst ext.
  rewrite (ext_process_listed MapToLower w srv folderID folderName files
             listed).
  cbv zeta. unfold Extended.walkFiles.
  destruct (ext_walk_no_metadata files
              {| Extended.item := Extended.emptyItem;
                 Extended.metadataFileID := "";
                 Extended.metadataFileName := "" |} Hno) as [E _].
  rewrite E. cbn [Extended.metadataFileID String.eqb value fst snd].
  split; [reflexivity|]. now rewrite ext_walk_fields.
Qed.

Lemma bas_no_metadata_no_error :
  Spec.noMetadataFile Basic.isMetadataName files = true ->
  snd bas = None /\ Basic.fields (fst bas) = [""; ""; ""; ""].
Proof.
  intros Hno. subst bas.
  rewrite (bas_process_listed MapToLower w srv folderID folderName files
             listed).
  cbv zeta. unfold Basic.walkFiles.
  rewrite (bas_walk_no_metadata files
             {| Basic.item := Basic.emptyItem;
                Basic.metadataFileID := "" |} Hno).
  cbn [Basic.metadataFileID String.eqb value fst snd].
  split; [reflexivity|]. now rewrite bas_walk_fields.
Qed.
End Classification.

(** C3. When the listing of an item folder succeeds, [imageUrls] holds one
    URL per file that is not metadata-named and has an image MIME type, in
    listing order; in [api/index.go], [videoUrls] holds one URL per file
    that is not metadata-named and has a video MIME type; the earlier
    handler's item has no [videoUrls] member. Other files add nothing, and
    without a metadata-named file the folder is processed without error
    and the four metadata fields stay empty. In particular the listing
    image/png, video/mp4, application/pdf gives one image URL, one video
    URL in [api/index.go], and empty metadata fields. *)
Theorem media_classification (MapToLower : string -> string) (w : World)
    (srv : Service) (folderID folderName : string) (files : list File) :
  FilesList w srv (filesQuery folderID) fileFields = OK files ->
  let ext := value (Extended.processItemFolder MapToLower w srv
                      folderID folderName) in
  let bas := value (Basic.processItemFolder MapToLower w srv
                      folderID folderName) in
  (Extended.ImageURLs (fst ext)
   = Some (Spec.urlsOf getImageURL
             (Spec.mediaFiles Extended.isMetadataName isImage files))
   /\ Extended.VideoURLs (fst ext)
      = Some (Spec.urlsOf Extended.getVideoURL
                (Spec.mediaFiles Extended.isMetadataName Extended.isVideo
                   files))
   /\ Basic.ImageURLs (fst bas)
      = Some (Spec.urlsOf getImageURL
                (Spec.mediaFiles Basic.isMetadataName isImage files))
   /\ jsonField "videoUrls" (Basic.itemJSON (fst bas)) = None)
  /\ (Spec.noMetadataFile Extended.isMetadataName files = true ->
      snd ext = None /\ Extended.fields (fst ext) = [""; ""; ""; ""])
  /\ (Spec.noMetadataFile Basic.isMetadataName files = true ->
      snd bas = None /\ Basic.fields (fst bas) = [""; ""; ""; ""])
  /\ (forall a b c : File,
         files = [a; b; c] ->
         MimeType a = "image/png" ->
         MimeType b = "video/mp4" ->
         MimeType c = "application/pdf" ->
         Spec.noMetadataFile Extended.isMetadataName files = true ->
         Extended.ImageURLs (fst ext) = Some [getImageURL (Id a)]
         /\ Extended.VideoURLs (fst ext) = Some [Extended.getVideoURL (Id b)]
         /\ Basic.ImageURLs (fst bas) = Some [getImageURL (Id a)]
         /\ snd ext = None /\ Extended.fields (fst ext) = [""; ""; ""; ""]
         /\ snd bas = None /\ Basic.fields (fst bas) = [""; ""; ""; ""]).
Proof.
  intros listed ext bas.
  destruct (ext_urls_classified MapToLower w srv folderID folderName files
              listed) as [Ei Ev].
  pose proof (bas_urls_classified MapToLower w srv folderID folderName files
                listed) as Eb.
  pose proof (ext_no_metadata_no_error MapToLower w srv folderID folderName
                files listed) as Hext.
  pose proof (bas_no_metadata_no_error MapToLower w srv folderID folderName
                files listed) as Hbas.
  fold ext in Ei, Ev, Hext. fold bas in Eb, Hbas.
  split; [repeat split; assumption|].
  split; [assumption|]. split; [assumption|].
  intros a b c -> Ha Hb Hc Hno.
  destruct (Hext Hno) as [X1 X2].
  destruct (Hbas (noMetadataFile_basic _ Hno)) as [Y1 Y2].
  pose proof (noMetadataFile_basic _ Hno) as Hno'.
  rewrite Ei, Ev, Eb. clear - Ha Hb Hc Hno Hno' X1 X2 Y1 Y2.
  unfold Spec.noMetadataFile in Hno, Hno'. cbn [forallb] in Hno, Hno'.
  rewrite !andb_true_iff in Hno, Hno'.
  destruct Hno as (Na & Nb & Nc & _), Hno' as (Ma & Mb & Mc & _).
  unfold Spec.mediaFiles, Spec.urlsOf. cbn [List.filter].
  rewrite Na, Nb, Nc, Ma, Mb, Mc, Ha, Hb, Hc.
  repeat split; assumption || reflexivity.
Qed.

Lemma mediaFiles_without_reserved (reserved inSet : string -> bool)
    (pre post : list File) (f : File) :
  reserved (Name f) = true ->
  Spec.mediaFiles reserved inSet (pre ++ f :: post)
  = Spec.mediaFiles reserved inSet (pre ++ post).
Proof.
  intros Hf. unfold Spec.mediaFiles. rewrite !List.filter_app.
  cbn [List.filter]. now rewrite Hf.
Qed.

(** C9. A file with a reserved metadata name adds nothing to [imageUrls]
    or [videoUrls], whatever its MIME type: the URLs of the item are those
    the file loop computes on the listing without that file. The reserved
    names are [metadata.txt] and [metadata.docx] in [api/index.go] and
    [metadata.txt] in the earlier handler. *)
Theorem reserved_name_is_never_media (MapToLower : string -> string)
    (w : World) (srv : Service) (folderID folderName : string)
    (pre post : list File) (f : File) :
  FilesList w srv (filesQuery folderID) fileFields = OK (pre ++ f :: post) ->
  (Extended.isMetadataName (Name f) = true ->
   let it := fst (value (Extended.processItemFolder MapToLower w srv
                           folderID folderName)) in
   Extended.ImageURLs it
   = Extended.ImageURLs (Extended.item (Extended.walkFiles (pre ++ post)))
   /\ Extended.VideoURLs it
      = Extended.VideoURLs (Extended.item (Extended.walkFiles (pre ++ post))))
  /\ (Basic.isMetadataName (Name f) = true ->
      Basic.ImageURLs
        (fst (value (Basic.processItemFolder MapToLower w srv
                       folderID folderName)))
      = Basic.ImageURLs (Basic.item (Basic.walkFiles (pre ++ post)))).
Proof.
  intros listed. split; intros Hf; cbv zeta.
  - destruct (ext_urls_classified MapToLower w srv folderID folderName _
                listed) as [Ei Ev].
    rewrite Ei, Ev, !mediaFiles_without_reserved by exact Hf.
    unfold Extended.walkFiles.
    destruct (ext_walk_urls (pre ++ post)
                {| Extended.item := Extended.emptyItem;
                   Extended.metadataFileID := "";
                   Extended.metadataFileName := "" |} [] []
                eq_refl eq_refl) as [E1 E2].
    rewrite E1, E2. split; reflexivity.
  - rewrite (bas_urls_classified MapToLower w srv folderID folderName _
               listed).
    rewrite mediaFiles_without_reserved by exact Hf.
    unfold Basic.walkFiles.
    now rewrite (bas_walk_urls (pre ++ post)
                   {| Basic.item := Basic.emptyItem;
                      Basic.metadataFileID := "" |} [] eq_refl).
Qed.

Lemma ext_readMetadata_one_download (MapToLower : string -> string)
    (w : World) (srv : Service) (fileID fileName : string) :
  List.filter isDownload
    (calls (Extended.readMetadata MapToLower w srv fileID fileName))
  = [EvDownload fileID].
Proof.
  unfold Extended.readMetadata, Files_Download, os_WriteFile, pandoc_Output,
    os_Remove, bind, emit, ret.
  destruct (Download w srv fileID); [|reflexivity].
  destruct (HasSuffix _ _); [|reflexivity].
  destruct (WriteFile w _ _); [reflexivity|].
  destruct (Pandoc w _ _); reflexivity.
Qed.

Lemma bas_readMetadata_one_download (MapToLower : string -> string)
    (w : World) (srv : Service) (fileID : string) :
  calls (Basic.readMetadata MapToLower w srv fileID) = [EvDownload fileID].
Proof.
  unfold Basic.readMetadata, Files_Download, bind, emit, ret.
  destruct (Download w srv fileID); reflexivity.
Qed.

(** C6. When the listing of an item folder has files with a reserved
    metadata name, and the last of them in listing order has a non-empty
    id (every Drive file has one), the metadata is read from that file and
    from no other: exactly one download is made, of that file, and the
    outcome of the folder is the outcome of reading it. *)
Theorem last_metadata_file_is_the_source (MapToLower : string -> string)
    (w : World) (srv : Service) (folderID folderName : string)
    (pre post : list File) (f : File) :
  FilesList w srv (filesQuery folderID) fileFields = OK (pre ++ f :: post) ->
  Id f <> "" ->
  (Extended.isMetadataName (Name f) = true ->
   Spec.noMetadataFile Extended.isMetadataName post = true ->
   let run := Extended.processItemFolder MapToLower w srv
                folderID folderName in
   let md := Extended.readMetadata MapToLower w srv (Id f) (Name f) in
   let it := Extended.item (Extended.walkFiles (pre ++ f :: post)) in
   List.filter isDownload (calls run) = [EvDownload (Id f)]
   /\ calls run = EvFilesList (filesQuery folderID) fileFields :: calls md
   /\ value run
      = match value md with
        | OK metadata => (Extended.setMetadata it metadata, None)
        | Err err => (it, Some (Sprintf "error reading metadata: %v" [err]))
        end)
  /\ (Basic.isMetadataName (Name f) = true ->
      Spec.noMetadataFile Basic.isMetadataName post = true ->
      let run := Basic.processItemFolder MapToLower w srv
                   folderID folderName in
      let md := Basic.readMetadata MapToLower w srv (Id f) in
      let it := Basic.item (Basic.walkFiles (pre ++ f :: post)) in
      List.filter isDownload (calls run) = [EvDownload (Id f)]
      /\ calls run = EvFilesList (filesQuery folderID) fileFields :: calls md
      /\ value run
         = match value md with
           | OK metadata => (Basic.setMetadata it metadata, None)
           | Err err => (it, Some (Sprintf "error reading metadata: %v" [err]))
           end).
Proof.
  intros listed Hid. apply String.eqb_neq in Hid.
  split; intros Hf Hpost; cbv zeta.
  - rewrite (ext_process_listed MapToLower w srv folderID folderName _ listed).
    cbv zeta.
    destruct (ext_walk_last_metadata pre post f
                {| Extended.item := Extended.emptyItem;
                   Extended.metadataFileID := "";
                   Extended.metadataFileName := "" |} Hf Hpost) as [E1 E2].
    fold (Extended.walkFiles (pre ++ f :: post)) in E1, E2.
    rewrite E1, E2, Hid. cbn [calls value fst snd List.filter isDownload].
    rewrite ext_readMetadata_one_download.
    split; [reflexivity|]. split; [reflexivity|].
    unfold value. case_result; reflexivity.
  - rewrite (bas_process_listed MapToLower w srv folderID folderName _ listed).
    cbv zeta.
    pose proof (bas_walk_last_metadata pre post f
                  {| Basic.item := Basic.emptyItem;
                     Basic.metadataFileID := "" |} Hf Hpost) as E1.
    fold (Basic.walkFiles (pre ++ f :: post)) in E1.
    rewrite E1, Hid. cbn [calls value fst snd List.filter isDownload].
    rewrite bas_readMetadata_one_download.
    split; [reflexivity|]. split; [reflexivity|].
    unfold value. case_result; reflexivity.
Qed.

(** ** The walk over the child folders *)

Section ExtendedWalk.
Variable MapToLower : string -> string.
Variable w : World.
Variable srv : Service.

Lemma ext_eachFolder_step (folder : File) (rest : list File)
    (items : slice Extended.Item) :
  value (Extended.eachFolder MapToLower w srv (folder :: rest) items)
  = value (Extended.eachFolder MapToLower w srv rest
             (if ext_succeeded MapToLower w srv folder
              then append items (fst (ext_outcome MapToLower w srv folder))
              else items)).
Proof.
  unfold ext_succeeded, ext_outcome, value. cbn [Extended.eachFolder].
  unfold bind at 1.
  destruct (Extended.processItemFolder MapToLower w srv (Id folder)
              (Name folder)) as [[it [err|]] l]; cbn [fst snd].
  - unfold Printf, bind, emit.
    now destruct (Extended.eachFolder MapToLower w srv rest items).
  - now destruct (Extended.eachFolder MapToLower w srv rest
                    (append items it)).
Qed.

Lemma ext_eachFolder_items (folders : list File) :
  forall items : slice Extended.Item,
    value (Extended.eachFolder MapToLower w srv folders items)
    = match ext_successes MapToLower w srv folders with
      | [] => items
      | l => Some (elems items ++ l)
      end.
Proof.
  induction folders as [|folder rest IH]; intros items; [reflexivity|].
  rewrite ext_eachFolder_step, IH. unfold ext_successes.
  cbn [List.filter].
  destruct (ext_succeeded MapToLower w srv folder); [|reflexivity].
  cbn [map]. unfold append.
  destruct (map _ (List.filter (ext_succeeded MapToLower w srv) rest))
    as [|x xs];
    [reflexivity|].
  set (it := fst (ext_outcome MapToLower w srv folder)).
  change (elems (Some (elems items ++ [it]))) with (elems items ++ [it]).
  now rewrite <- app_assoc.
Qed.

Lemma ext_getItems_listed (rootFolderID : string) (folders : list File) :
  FilesList w srv (foldersQuery rootFolderID) folderFields = OK folders ->
  value (Extended.getItems MapToLower w srv rootFolderID)
  = OK (match ext_successes MapToLower w srv folders with
        | [] => None
        | l => Some l
        end).
Proof.
  intros H. unfold Extended.getItems, Files_List, bind, emit, ret.
  rewrite H.
  pose proof (ext_eachFolder_items folders None) as E. unfold value in E.
  destruct (Extended.eachFolder MapToLower w srv folders None) as [v l].
  cbn [value fst] in *. now rewrite E.
Qed.

Lemma ext_getItems_not_listed (rootFolderID err : string) :
  FilesList w srv (foldersQuery rootFolderID) folderFields = Err err ->
  Extended.getItems MapToLower w srv rootFolderID
  = (Err (Sprintf "error listing folders: %v" [err]),
     [EvFilesList (foldersQuery rootFolderID) folderFields]).
Proof.
  intros H. unfold Extended.getItems, Files_List, bind, emit, ret.
  now rewrite H.
Qed.
End ExtendedWalk.

Section ExtendedComplete.
Variable MapToLower : string -> string.
Variable w : World.
Variable srv : Service.

Lemma ext_succeeded_complete (folder : File) :
  ext_succeeded MapToLower w srv folder = true ->
  ext_complete MapToLower w srv folder
    (fst (ext_outcome MapToLower w srv folder)).
Proof.
  unfold ext_succeeded, ext_complete, ext_outcome. intros Hok.
  destruct (FilesList w srv (filesQuery (Id folder)) fileFields)
    as [files|err] eqn:L.
  - destruct (ext_walk_urls files
                {| Extended.item := Extended.emptyItem;
                   Extended.metadataFileID := "";
                   Extended.metadataFileName := "" |} [] []
                eq_refl eq_refl) as [Ei Ev].
    fold (Extended.walkFiles files) in Ei, Ev. cbn [app] in Ei, Ev.
    rewrite (ext_process_listed MapToLower w srv _ (Name folder) _ L)
      in Hok |- *.
    cbv zeta in Hok |- *.
    destruct (String.eqb (Extended.metadataFileID
                            (Extended.walkFiles files)) "") eqn:Hid.
    + cbn [value fst snd] in *. split; [reflexivity|].
      exists files. split; [reflexivity|]. split; [exact Ei|].
      split; [exact Ev|].
      left. split; [now apply String.eqb_eq|].
      unfold Extended.walkFiles. now rewrite ext_walk_fields.
    + destruct (value (Extended.readMetadata MapToLower w srv _ _))
        as [metadata|err] eqn:R; cbn [value fst snd] in *;
        [|discriminate].
      split; [reflexivity|].
      exists files. split; [reflexivity|]. split; [exact Ei|].
      split; [exact Ev|].
      right. exists metadata. split; [exact R|reflexivity].
  - rewrite (ext_process_not_listed MapToLower w srv _ (Name folder) _ L)
      in Hok.
    discriminate.
Qed.

Lemma ext_listing_failure_fails (folder : File) (err : string) :
  FilesList w srv (filesQuery (Id folder)) fileFields = Err err ->
  ext_succeeded MapToLower w srv folder = false.
Proof.
  intros L. unfold ext_succeeded, ext_outcome.
  now rewrite (ext_process_not_listed MapToLower w srv _ (Name folder) _ L).
Qed.

Lemma ext_metadata_failure_fails (folder : File) (files : list File)
    (err : string) :
  FilesList w srv (filesQuery (Id folder)) fileFields = OK files ->
  Extended.metadataFileID (Extended.walkFiles files) <> "" ->
  value (Extended.readMetadata MapToLower w srv
           (Extended.metadataFileID (Extended.walkFiles files))
           (Extended.metadataFileName (Extended.walkFiles files)))
  = Err err ->
  ext_succeeded MapToLower w srv folder = false.
Proof.
  intros L Hid R. unfold ext_succeeded, ext_outcome.
  rewrite (ext_process_listed MapToLower w srv _ (Name folder) _ L).
  cbv zeta. apply String.eqb_neq in Hid. rewrite Hid, R. reflexivity.
Qed.
End ExtendedComplete.

(** C8. No partial item is returned: when [getItems] succeeds, its items
    are, one for one and in listing order, the child folders whose
    processing succeeded, and each item comes from a complete run (files
    listed, media classified, metadata read when there is a metadata
    file). A folder whose file listing fails, or whose metadata cannot be
    downloaded or converted, is not among them. *)
Theorem no_partial_item (MapToLower : string -> string) (w : World)
    (srv : Service) (rootFolderID : string) (items : slice Extended.Item) :
  value (Extended.getItems MapToLower w srv rootFolderID) = OK items ->
  (exists folders : list File,
      FilesList w srv (foldersQuery rootFolderID) folderFields = OK folders
      /\ Forall2 (ext_complete MapToLower w srv)
           (List.filter (ext_succeeded MapToLower w srv) folders)
           (elems items))
  /\ (forall (folder : File) (err : string),
         FilesList w srv (filesQuery (Id folder)) fileFields = Err err ->
         ext_succeeded MapToLower w srv folder = false)
  /\ (forall (folder : File) (files : list File) (err : string),
         FilesList w srv (filesQuery (Id folder)) fileFields = OK files ->
         Extended.metadataFileID (Extended.walkFiles files) <> "" ->
         value (Extended.readMetadata MapToLower w srv
                  (Extended.metadataFileID (Extended.walkFiles files))
                  (Extended.metadataFileName (Extended.walkFiles files)))
         = Err err ->
         ext_succeeded MapToLower w srv folder = false).
Proof.
  intros Hitems.
  split; [|split;
           [apply ext_listing_failure_fails
           |apply ext_metadata_failure_fails]].
  destruct (FilesList w srv (foldersQuery rootFolderID) folderFields)
    as [folders|err] eqn:L.
  - exists folders. split; [reflexivity|].
    rewrite (ext_getItems_listed MapToLower w srv _ _ L) in Hitems.
    injection Hitems as <-.
    assert (Forall2 (ext_complete MapToLower w srv)
              (List.filter (ext_succeeded MapToLower w srv) folders)
              (ext_successes MapToLower w srv folders)) as Hall.
    { unfold ext_successes.
      assert (Forall
                (fun folder => ext_succeeded MapToLower w srv folder = true)
                (List.filter (ext_succeeded MapToLower w srv) folders))
        as Hok
        by (apply List.Forall_forall; intros x Hx;
            now apply List.filter_In in Hx).
      induction Hok as [|folder rest Hf _ IH]; constructor; [|exact IH].
      now apply ext_succeeded_complete. }
    destruct (ext_successes MapToLower w srv folders); exact Hall.
  - rewrite (ext_getItems_not_listed MapToLower w srv _ _ L) in Hitems.
    discriminate.
Qed.

Section BasicWalk.
Variable MapToLower : string -> string.
Variable w : World.
Variable srv : Service.

Lemma bas_eachFolder_step (folder : File) (rest : list File)
    (items : slice Basic.Item) :
  value (Basic.eachFolder MapToLower w srv (folder :: rest) items)
  = value (Basic.eachFolder MapToLower w srv rest
             (if bas_succeeded MapToLower w srv folder
              then append items (fst (bas_outcome MapToLower w srv folder))
              else items)).
Proof.
  unfold bas_succeeded, bas_outcome, value. cbn [Basic.eachFolder].
  unfold bind at 1.
  destruct (Basic.processItemFolder MapToLower w srv (Id folder)
              (Name folder)) as [[it [err|]] l]; cbn [fst snd].
  - unfold Printf, bind, emit.
    now destruct (Basic.eachFolder MapToLower w srv rest items).
  - now destruct (Basic.eachFolder MapToLower w srv rest (append items it)).
Qed.

Lemma bas_eachFolder_items (folders : list File) :
  forall items : slice Basic.Item,
    value (Basic.eachFolder MapToLower w srv folders items)
    = match bas_successes MapToLower w srv folders with
      | [] => items
      | l => Some (elems items ++ l)
      end.
Proof.
  induction folders as [|folder rest IH]; intros items; [reflexivity|].
  rewrite bas_eachFolder_step, IH. unfold bas_successes.
  cbn [List.filter].
  destruct (bas_succeeded MapToLower w srv folder); [|reflexivity].
  cbn [map]. unfold append.
  destruct (map _ (List.filter (bas_succeeded MapToLower w srv) rest))
    as [|x xs];
    [reflexivity|].
  set (it := fst (bas_outcome MapToLower w srv folder)).
  change (elems (Some (elems items ++ [it]))) with (elems items ++ [it]).
  now rewrite <- app_assoc.
Qed.

Lemma bas_getItems_listed (rootFolderID : string) (folders : list File) :
  FilesList w srv (foldersQuery rootFolderID) folderFields = OK folders ->
  value (Basic.getItems MapToLower w srv rootFolderID)
  = OK (match bas_successes MapToLower w srv folders with
        | [] => None
        | l => Some l
        end).
Proof.
  intros H. unfold Basic.getItems, Files_List, bind, emit, ret.
  rewrite H.
  pose proof (bas_eachFolder_items folders None) as E. unfold value in E.
  destruct (Basic.eachFolder MapToLower w srv folders None) as [v l].
  cbn [value fst] in *. now rewrite E.
Qed.

Lemma bas_getItems_not_listed (rootFolderID err : string) :
  FilesList w srv (foldersQuery rootFolderID) folderFields = Err err ->
  Basic.getItems MapToLower w srv rootFolderID
  = (Err (Sprintf "error listing folders: %v" [err]),
     [EvFilesList (foldersQuery rootFolderID) folderFields]).
Proof.
  intros H. unfold Basic.getItems, Files_List, bind, emit, ret.
  now rewrite H.
Qed.
End BasicWalk.

(** ** The handlers *)

Section Handlers.
Variable MapToLower : string -> string.
Variable w : World.
Variable r : Request.
Variable srv : Service.
Hypothesis get : Method r = "GET".
Hypothesis has_root : rootFolderOf w r <> "".
Hypothesis has_credentials : Getenv w "GOOGLE_CREDENTIALS_JSON" <> "".
Hypothesis has_service :
  NewService w (Getenv w "GOOGLE_CREDENTIALS_JSON") = OK srv.

Lemma ext_Handler_walks :
  value (Extended.Handler MapToLower w newResponseWriter r)
  = match value (Extended.getItems MapToLower w srv (rootFolderOf w r)) with
    | Err err =>
        Encode (Extended.errorJSON err)
          (WriteHeader 500 (corsHeaders newResponseWriter))
    | OK items =>
        Encode (Extended.responseJSON
                  {| Extended.Items := items; Extended.Error := "" |})
          (corsHeaders newResponseWriter)
    end.
Proof.
  unfold Extended.Handler. rewrite get. cbn [String.eqb Ascii.eqb Bool.eqb negb].
  fold (rootFolderOf w r).
  apply String.eqb_neq in has_root, has_credentials.
  rewrite has_root, has_credentials.
  unfold drive_NewService, bind, emit, ret. rewrite has_service.
  destruct (Extended.getItems MapToLower w srv (rootFolderOf w r))
    as [[items|err] l]; reflexivity.
Qed.

Lemma bas_Handler_walks :
  value (Basic.Handler MapToLower w newResponseWriter r)
  = match value (Basic.getItems MapToLower w srv (rootFolderOf w r)) with
    | Err err =>
        WriteHeader 500
          (Encode (Basic.errorJSON err) (corsHeaders newResponseWriter))
    | OK items =>
        Encode (Basic.responseJSON
                  {| Basic.Items := items; Basic.Error := "" |})
          (corsHeaders newResponseWriter)
    end.
Proof.
  unfold Basic.Handler. rewrite get. cbn [String.eqb Ascii.eqb Bool.eqb negb].
  unfold Basic.getEnv.
  assert (forall k, (if String.eqb (Getenv w k) "" then "" else Getenv w k)
                    = Getenv w k) as Hdef
    by (intros k; destruct (String.eqb_spec (Getenv w k) ""); congruence).
  rewrite !Hdef. fold (rootFolderOf w r).
  apply String.eqb_neq in has_root, has_credentials.
  rewrite has_root, has_credentials.
  unfold drive_NewService, bind, emit, ret. rewrite has_service.
  destruct (Basic.getItems MapToLower w srv (rootFolderOf w r))
    as [[items|err] l]; reflexivity.
Qed.
End Handlers.

(** The earlier handler writes every body before it calls [WriteHeader],
    so the status it sends is 200 on every path. *)
Lemma bas_Handler_status (MapToLower : string -> string) (w : World)
    (r : Request) :
  statusCode (value (Basic.Handler MapToLower w newResponseWriter r)) = 200.
Proof.
  unfold Basic.Handler.
  destruct (String.eqb (Method r) "OPTIONS"); [reflexivity|].
  destruct (String.eqb (Method r) "GET"); cbn [negb]; [|reflexivity].
  destruct (String.eqb _ ""); [reflexivity|].
  destruct (String.eqb _ ""); [reflexivity|].
  unfold drive_NewService, bind, emit, ret.
  destruct (NewService w _) as [srv|err]; [|reflexivity].
  destruct (Basic.getItems MapToLower w srv _) as [[items|err] l];
    reflexivity.
Qed.


(** C4, as amended. For every GET request without a [folderId] query
    parameter, in an environment without [GOOGLE_DRIVE_FOLDER_ID], both
    handlers write exactly one document, the object with members
    [items] (null) and [error] ("Folder ID is required"), and make no call
    to Drive or to any other service; [api/index.go] answers with status
    400. *)
Theorem missing_folder_id_is_rejected (MapToLower : string -> string)
    (w : World) (r : Request) :
  Method r = "GET" ->
  QueryGet r "folderId" = "" ->
  Getenv w "GOOGLE_DRIVE_FOLDER_ID" = "" ->
  let ext := Extended.Handler MapToLower w newResponseWriter r in
  let bas := Basic.Handler MapToLower w newResponseWriter r in
  body (value ext) = [folderIdRequired]
  /\ statusCode (value ext) = 400
  /\ calls ext = []
  /\ body (value bas) = [folderIdRequired]
  /\ calls bas = [].
Proof.
  intros Hget Hq Henv. cbv zeta.
  unfold Extended.Handler, Basic.Handler, Basic.getEnv.
  rewrite Hget, Hq, Henv. repeat split; reflexivity.
Qed.

Lemma missing_folder_id_is_rejected_witness :
  body (value (Extended.Handler id (Examples.world "") newResponseWriter
                 (Examples.request "GET"))) = [folderIdRequired]
  /\ statusCode (value (Extended.Handler id (Examples.world "")
                          newResponseWriter (Examples.request "GET"))) = 400
  /\ calls (Extended.Handler id (Examples.world "") newResponseWriter
              (Examples.request "GET")) = []
  /\ body (value (Basic.Handler id (Examples.world "") newResponseWriter
                    (Examples.request "GET"))) = [folderIdRequired]
  /\ calls (Basic.Handler id (Examples.world "") newResponseWriter
              (Examples.request "GET")) = [].
Proof.
  apply (missing_folder_id_is_rejected id (Examples.world "")
           (Examples.request "GET")); reflexivity.
Defined.

(** C4 as stated fails: on a GET request with neither the parameter nor the
    environment default, the body of either handler is not the object with
    the single member [error], since [items] is written too; and on an
    OPTIONS request with neither of them the status is 200 with an empty
    body. *)
Lemma missing_folder_id_body_is_not_error_only :
  QueryGet (Examples.request "GET") "folderId" = ""
  /\ Getenv (Examples.world "") "GOOGLE_DRIVE_FOLDER_ID" = ""
  /\ body (value (Extended.Handler id (Examples.world "") newResponseWriter
                    (Examples.request "GET")))
     <> [JObject [("error", JString "Folder ID is required")]]
  /\ body (value (Basic.Handler id (Examples.world "") newResponseWriter
                    (Examples.request "GET")))
     <> [JObject [("error", JString "Folder ID is required")]]
  /\ statusCode (value (Extended.Handler id (Examples.world "")
                          newResponseWriter (Examples.request "OPTIONS")))
     = 200
  /\ body (value (Extended.Handler id (Examples.world "") newResponseWriter
                    (Examples.request "OPTIONS"))) = [].
Proof.
  repeat split; try reflexivity; intros H; vm_compute in H; discriminate H.
Qed.

(** C2 at the failing input: when the listing of the root folder fails, the
    earlier handler writes the error document first, which sends status
    200, so its later [WriteHeader(500)] has no effect; [api/index.go]
    answers 500. *)
Theorem root_listing_failure_status (MapToLower : string -> string) :
  let w := Examples.world "nowhere" in
  let r := Examples.request "GET" in
  let doc := JObject [("items", JNull);
                      ("error",
                       JString "error listing folders: backend error")] in
  FilesList w Examples.service (foldersQuery "nowhere") folderFields
  = Err "backend error"
  /\ body (value (Basic.Handler MapToLower w newResponseWriter r)) = [doc]
  /\ statusCode (value (Basic.Handler MapToLower w newResponseWriter r)) = 200
  /\ body (value (Extended.Handler MapToLower w newResponseWriter r)) = [doc]
  /\ statusCode (value (Extended.Handler MapToLower w newResponseWriter r))
     = 500.
Proof. repeat split; vm_compute; reflexivity. Qed.

(** C5 at the failing input: a POST request, which involves no file at all,
    is answered with status 405 by [api/index.go] and with status 200 by
    the earlier handler, with the same body. *)
Theorem variants_differ_on_rejected_method (MapToLower : string -> string)
    (w : World) :
  let r := Examples.request "POST" in
  let ext := value (Extended.Handler MapToLower w newResponseWriter r) in
  let bas := value (Basic.Handler MapToLower w newResponseWriter r) in
  statusCode ext = 405
  /\ statusCode bas = 200
  /\ body ext = body bas
  /\ sentHeader ext = sentHeader bas.
Proof. repeat split; reflexivity. Qed.

Lemma media_classification_witness :
  let ext := value (Extended.processItemFolder id (Examples.world "root")
                      Examples.service "f1" "one") in
  let bas := value (Basic.processItemFolder id (Examples.world "root")
                      Examples.service "f1" "one") in
  Extended.ImageURLs (fst ext) = Some [getImageURL "a"]
  /\ Extended.VideoURLs (fst ext) = Some [Extended.getVideoURL "b"]
  /\ Basic.ImageURLs (fst bas) = Some [getImageURL "a"]
  /\ snd ext = None /\ Extended.fields (fst ext) = [""; ""; ""; ""]
  /\ snd bas = None /\ Basic.fields (fst bas) = [""; ""; ""; ""].
Proof.
  exact (proj2 (proj2 (proj2
           (media_classification id (Examples.world "root") Examples.service
              "f1" "one" Examples.filesOfOne eq_refl)))
           (Examples.file "a" "photo.png" "image/png")
           (Examples.file "b" "clip.mp4" "video/mp4")
           (Examples.file "c" "notes.pdf" "application/pdf")
           eq_refl eq_refl eq_refl eq_refl eq_refl).
Defined.

Lemma reserved_name_is_never_media_witness :
  Extended.ImageURLs
    (fst (value (Extended.processItemFolder id (Examples.world "root")
                   Examples.service "f3" "three")))
  = Extended.ImageURLs
      (Extended.item
         (Extended.walkFiles
            [Examples.file "m1" "metadata.txt" "text/plain";
             Examples.file "d" "cover.jpg" "image/jpeg"]))
  /\ Basic.ImageURLs
       (fst (value (Basic.processItemFolder id (Examples.world "root")
                      Examples.service "f3" "three")))
     = Basic.ImageURLs
         (Basic.item
            (Basic.walkFiles
               [Examples.file "m1" "metadata.txt" "text/plain";
                Examples.file "d" "cover.jpg" "image/jpeg"])).
Proof.
  pose proof (reserved_name_is_never_media id (Examples.world "root")
                Examples.service "f3" "three"
                [Examples.file "m1" "metadata.txt" "text/plain";
                 Examples.file "d" "cover.jpg" "image/jpeg"]
                []
                (Examples.file "m2" "metadata.txt" "image/png")
                eq_refl) as [Hext Hbas].
  split; [exact (proj1 (Hext eq_refl)) | exact (Hbas eq_refl)].
Defined.

Lemma last_metadata_file_is_the_source_witness :
  List.filter isDownload
    (calls (Extended.processItemFolder id (Examples.world "root")
              Examples.service "f3" "three")) = [EvDownload "m2"]
  /\ List.filter isDownload
       (calls (Basic.processItemFolder id (Examples.world "root")
                 Examples.service "f3" "three")) = [EvDownload "m2"].
Proof.
  assert ("m2" <> "") as Hid by discriminate.
  pose proof (last_metadata_file_is_the_source id (Examples.world "root")
                Examples.service "f3" "three"
                [Examples.file "m1" "metadata.txt" "text/plain";
                 Examples.file "d" "cover.jpg" "image/jpeg"]
                []
                (Examples.file "m2" "metadata.txt" "image/png")
                eq_refl Hid) as [Hext Hbas].
  split; [exact (proj1 (Hext eq_refl eq_refl))
         | exact (proj1 (Hbas eq_refl eq_refl))].
Defined.

Lemma no_partial_item_witness :
  exists folders : list File,
    FilesList (Examples.world "root") Examples.service (foldersQuery "root")
      folderFields = OK folders
    /\ Forall2 (ext_complete id (Examples.world "root") Examples.service)
         (List.filter
            (ext_succeeded id (Examples.world "root") Examples.service)
            folders)
         [fst (ext_outcome id (Examples.world "root") Examples.service
                 (Examples.file "f1" "one" Examples.folderType));
          fst (ext_outcome id (Examples.world "root") Examples.service
                 (Examples.file "f3" "three" Examples.folderType))].
Proof.
  exact (proj1 (no_partial_item id (Examples.world "root") Examples.service
                  "root" _ eq_refl)).
Defined.

(** ** Failure isolation in the response *)

Section Isolation.
Variable MapToLower : string -> string.
Variable w : World.
Variable r : Request.
Variable srv : Service.
Hypothesis get : Method r = "GET".
Hypothesis has_root : rootFolderOf w r <> "".
Hypothesis has_credentials : Getenv w "GOOGLE_CREDENTIALS_JSON" <> "".
Hypothesis has_service :
  NewService w (Getenv w "GOOGLE_CREDENTIALS_JSON") = OK srv.

(** When the root listing succeeds, the answer is 200 and carries the
    items of the folders processed without error, in listing order. *)
Lemma folder_failures_are_isolated (folders : list File) :
  FilesList w srv (foldersQuery (rootFolderOf w r)) folderFields
  = OK folders ->
  let ext := value (Extended.Handler MapToLower w newResponseWriter r) in
  let bas := value (Basic.Handler MapToLower w newResponseWriter r) in
  statusCode ext = 200
  /\ body ext
     = [Extended.responseJSON
          {| Extended.Items :=
               match ext_successes MapToLower w srv folders with
               | [] => None
               | l => Some l
               end;
             Extended.Error := "" |}]
  /\ statusCode bas = 200
  /\ body bas
     = [Basic.responseJSON
          {| Basic.Items :=
               match bas_successes MapToLower w srv folders with
               | [] => None
               | l => Some l
               end;
             Basic.Error := "" |}].
Proof.
  intros L. cbv zeta.
  rewrite (ext_Handler_walks MapToLower w r srv get has_root
             has_credentials has_service).
  rewrite (bas_Handler_walks MapToLower w r srv get has_root
             has_credentials has_service).
  rewrite (ext_getItems_listed MapToLower w srv _ _ L).
  rewrite (bas_getItems_listed MapToLower w srv _ _ L).
  repeat split; reflexivity.
Qed.

(** When the root listing fails, [api/index.go] answers 500 with the
    error; the earlier handler writes the same document. *)
Lemma root_listing_failure_fails_request (err : string) :
  FilesList w srv (foldersQuery (rootFolderOf w r)) folderFields
  = Err err ->
  let ext := value (Extended.Handler MapToLower w newResponseWriter r) in
  let bas := value (Basic.Handler MapToLower w newResponseWriter r) in
  statusCode ext = 500
  /\ body ext
     = [Extended.errorJSON (Sprintf "error listing folders: %v" [err])]
  /\ body bas
     = [Basic.errorJSON (Sprintf "error listing folders: %v" [err])].
Proof.
  intros L. cbv zeta.
  rewrite (ext_Handler_walks MapToLower w r srv get has_root
             has_credentials has_service).
  rewrite (bas_Handler_walks MapToLower w r srv get has_root
             has_credentials has_service).
  rewrite (ext_getItems_not_listed MapToLower w srv _ _ L).
  rewrite (bas_getItems_not_listed MapToLower w srv _ _ L).
  repeat split; reflexivity.
Qed.
End Isolation.

(** ** The two handlers on folders without videos and [metadata.docx] *)

Lemma visit_sameWalk (e : Extended.Walk) (b : Basic.Walk) (f : File) :
  plainFile f = true ->
  sameWalk e b -> sameWalk (Extended.visit e f) (Basic.visit b f).
Proof.
  unfold plainFile, sameWalk. intros Hp (Hitem & Hid & Hname).
  apply andb_true_iff in Hp as [Hv Hd].
  apply negb_true_iff in Hv, Hd.
  unfold Extended.visit, Basic.visit, Extended.isMetadataName,
    Basic.isMetadataName.
  rewrite Hd, orb_false_r, Hv.
  destruct (String.eqb_spec (Name f) "metadata.txt") as [Hn|Hn].
  - cbn. repeat split; [exact Hitem | now right].
  - destruct (isImage (MimeType f)); cbn; rewrite ?Hitem;
      repeat split; assumption.
Qed.

Lemma walk_sameWalk (files : list File) :
  forall (e : Extended.Walk) (b : Basic.Walk),
    forallb plainFile files = true ->
    sameWalk e b ->
    sameWalk (fold_left Extended.visit files e) (fold_left Basic.visit files b).
Proof.
  induction files as [|f rest IH]; intros e b Hp Hs; [exact Hs|].
  cbn [forallb] in Hp. apply andb_true_iff in Hp as [Hf Hrest].
  cbn [fold_left]. apply IH; [exact Hrest|]. now apply visit_sameWalk.
Qed.

Lemma readMetadata_of_text (MapToLower : string -> string) (w : World)
    (srv : Service) (fileID fileName : string) :
  fileName = "" \/ fileName = "metadata.txt" ->
  Extended.readMetadata MapToLower w srv fileID fileName
  = Basic.readMetadata MapToLower w srv fileID.
Proof.
  intros [-> | ->]; reflexivity.
Qed.

Section Agreement.
Variable MapToLower : string -> string.
Variable w : World.
Hypothesis plain : plainWorld w.

Lemma process_forget (srv : Service) (folderID folderName : string) :
  Basic.processItemFolder MapToLower w srv folderID folderName
  = let x := Extended.processItemFolder MapToLower w srv
               folderID folderName in
    ((forget (fst (fst x)), snd (fst x)), snd x).
Proof.
  cbv zeta.
  destruct (FilesList w srv (filesQuery folderID) fileFields)
    as [files|err] eqn:L.
  - rewrite (ext_process_listed MapToLower w srv _ folderName _ L).
    rewrite (bas_process_listed MapToLower w srv _ folderName _ L).
    cbv zeta.
    destruct (walk_sameWalk files
                {| Extended.item := Extended.emptyItem;
                   Extended.metadataFileID := "";
                   Extended.metadataFileName := "" |}
                {| Basic.item := Basic.emptyItem;
                   Basic.metadataFileID := "" |}
                (plain srv _ files L))
      as (Hitem & Hid & Hname);
      [repeat split; now left|].
    fold (Extended.walkFiles files) in Hitem, Hid, Hname.
    fold (Basic.walkFiles files) in Hitem, Hid.
    rewrite Hid, Hitem.
    destruct (String.eqb (Extended.metadataFileID
                            (Extended.walkFiles files)) "");
      [reflexivity|].
    rewrite (readMetadata_of_text MapToLower w srv _ _ Hname).
    unfold value.
    destruct (Basic.readMetadata MapToLower w srv _) as [[md|err] l];
      reflexivity.
  - rewrite (ext_process_not_listed MapToLower w srv _ folderName _ L).
    rewrite (bas_process_not_listed MapToLower w srv _ folderName _ L).
    reflexivity.
Qed.

Lemma eachFolder_forget (srv : Service) (folders : list File) :
  forall items : slice Extended.Item,
    Basic.eachFolder MapToLower w srv folders (forgetAll items)
    = let x := Extended.eachFolder MapToLower w srv folders items in
      (forgetAll (fst x), snd x).
Proof.
  induction folders as [|folder rest IH]; intros items; [reflexivity|].
  cbn [Basic.eachFolder Extended.eachFolder]. rewrite process_forget.
  cbv zeta.
  destruct (Extended.processItemFolder MapToLower w srv (Id folder)
              (Name folder)) as [[it [err|]] l]; cbn [fst snd].
  - unfold Printf, bind, emit. cbn [fst snd]. rewrite IH. cbv zeta.
    destruct (Extended.eachFolder MapToLower w srv rest items);
      reflexivity.
  - assert (append (forgetAll items) (forget it)
            = forgetAll (append items it)) as E
      by (unfold append, forgetAll, elems; destruct items; cbn;
          now rewrite ?map_app).
    unfold bind. cbn [fst snd]. rewrite E, IH. cbv zeta.
    destruct (Extended.eachFolder MapToLower w srv rest (append items it));
      reflexivity.
Qed.

Lemma getItems_forget (srv : Service) (rootFolderID : string) :
  Basic.getItems MapToLower w srv rootFolderID
  = let x := Extended.getItems MapToLower w srv rootFolderID in
    (match fst x with
     | OK items => OK (forgetAll items)
     | Err err => Err err
     end, snd x).
Proof.
  unfold Basic.getItems, Extended.getItems, Files_List, bind, emit, ret.
  destruct (FilesList w srv (foldersQuery rootFolderID) folderFields);
    [|reflexivity].
  change (@None (list Basic.Item)) with (forgetAll None).
  rewrite eachFolder_forget. cbv zeta.
  destruct (Extended.eachFolder MapToLower w srv _ None); reflexivity.
Qed.

Lemma itemJSON_forget (it : Extended.Item) :
  Basic.itemJSON (forget it) = withoutVideoUrls (Extended.itemJSON it).
Proof. reflexivity. Qed.

Lemma responseJSON_forget (items : slice Extended.Item) (err : string) :
  Basic.responseJSON
    {| Basic.Items := forgetAll items; Basic.Error := err |}
  = itemsWithoutVideoUrls
      (Extended.responseJSON
         {| Extended.Items := items; Extended.Error := err |}).
Proof.
  unfold Basic.responseJSON, Extended.responseJSON, itemsWithoutVideoUrls.
  destruct items as [l|]; cbn; [|reflexivity].
  rewrite !map_map. reflexivity.
Qed.

(** On a world whose folders hold no video and no [metadata.docx], the
    two handlers make the same calls and send the same header and the
    same documents up to the [videoUrls] member; the earlier handler
    answers 200 on every path. *)
Lemma handlers_agree_on_plain_folders (r : Request) :
  let ext := Extended.Handler MapToLower w newResponseWriter r in
  let bas := Basic.Handler MapToLower w newResponseWriter r in
  body (value bas) = map itemsWithoutVideoUrls (body (value ext))
  /\ calls bas = calls ext
  /\ sentHeader (value bas) = sentHeader (value ext)
  /\ statusCode (value bas) = 200.
Proof.
  cbv zeta. unfold Extended.Handler, Basic.Handler, Basic.getEnv.
  assert (forall k, (if String.eqb (Getenv w k) "" then "" else Getenv w k)
                    = Getenv w k) as Hdef
    by (intros k; destruct (String.eqb_spec (Getenv w k) ""); congruence).
  rewrite !Hdef.
  destruct (String.eqb (Method r) "OPTIONS");
    [repeat split; reflexivity|].
  destruct (String.eqb (Method r) "GET"); cbn [negb];
    [|repeat split; reflexivity].
  destruct (String.eqb (if String.eqb (QueryGet r "folderId") ""
                        then Getenv w "GOOGLE_DRIVE_FOLDER_ID"
                        else QueryGet r "folderId") "");
    [repeat split; reflexivity|].
  destruct (String.eqb (Getenv w "GOOGLE_CREDENTIALS_JSON") "");
    [repeat split; reflexivity|].
  unfold drive_NewService, bind at 1 2 5 6, emit, ret.
  destruct (NewService w (Getenv w "GOOGLE_CREDENTIALS_JSON"))
    as [srv|err]; [|repeat split; reflexivity].
  unfold bind. rewrite getItems_forget. cbv zeta.
  destruct (Extended.getItems MapToLower w srv _) as [[items|err] l];
    cbn [fst snd value calls].
  - unfold Encode at 1 3. cbn [body corsHeaders Header_Set WriteHeader sent].
    rewrite responseJSON_forget. repeat split; reflexivity.
  - repeat split; reflexivity.
Qed.
End Agreement.

(** * Further properties *)

(** ** The paths of the handler *)

(** X1. An OPTIONS request is answered with status 200 and an empty body by
    both handlers, whatever the configuration, and no call is made. *)
Theorem preflight_is_answered_without_work (MapToLower : string -> string)
    (w : World) (r : Request) :
  Method r = "OPTIONS" ->
  let ext := Extended.Handler MapToLower w newResponseWriter r in
  let bas := Basic.Handler MapToLower w newResponseWriter r in
  statusCode (value ext) = 200 /\ body (value ext) = [] /\ calls ext = []
  /\ statusCode (value bas) = 200 /\ body (value bas) = []
  /\ calls bas = [].
Proof.
  intros Hm. cbv zeta. unfold Extended.Handler, Basic.Handler.
  rewrite Hm. repeat split; reflexivity.
Qed.

Lemma preflight_is_answered_without_work_witness :
  statusCode (value (Extended.Handler id Failures.noClient newResponseWriter
                       (Examples.request "OPTIONS"))) = 200
  /\ body (value (Extended.Handler id Failures.noClient newResponseWriter
                    (Examples.request "OPTIONS"))) = []
  /\ calls (Extended.Handler id Failures.noClient newResponseWriter
              (Examples.request "OPTIONS")) = []
  /\ statusCode (value (Basic.Handler id Failures.noClient newResponseWriter
                          (Examples.request "OPTIONS"))) = 200
  /\ body (value (Basic.Handler id Failures.noClient newResponseWriter
                    (Examples.request "OPTIONS"))) = []
  /\ calls (Basic.Handler id Failures.noClient newResponseWriter
              (Examples.request "OPTIONS")) = [].
Proof.
  exact (preflight_is_answered_without_work id Failures.noClient
           (Examples.request "OPTIONS") eq_refl).
Defined.

(** X2. [api/index.go] answers a request whose method is neither OPTIONS
    nor GET with status 405 and the error document "Method not allowed",
    without reading the configuration or calling Drive. *)
Theorem other_methods_are_refused (MapToLower : string -> string)
    (w : World) (r : Request) :
  Method r <> "OPTIONS" ->
  Method r <> "GET" ->
  let ext := Extended.Handler MapToLower w newResponseWriter r in
  statusCode (value ext) = 405
  /\ body (value ext) = [errorDocument "Method not allowed"]
  /\ calls ext = [].
Proof.
  intros Ho Hg. apply String.eqb_neq in Ho, Hg.
  cbv zeta. unfold Extended.Handler. rewrite Ho, Hg.
  repeat split; reflexivity.
Qed.

Lemma other_methods_are_refused_witness :
  statusCode (value (Extended.Handler id (Examples.world "root")
                       newResponseWriter (Examples.request "DELETE"))) = 405
  /\ body (value (Extended.Handler id (Examples.world "root")
                    newResponseWriter (Examples.request "DELETE")))
     = [errorDocument "Method not allowed"]
  /\ calls (Extended.Handler id (Examples.world "root") newResponseWriter
              (Examples.request "DELETE")) = [].
Proof.
  apply (other_methods_are_refused id (Examples.world "root")
           (Examples.request "DELETE")); discriminate.
Defined.

(** X3. When a folder id is known but [GOOGLE_CREDENTIALS_JSON] is empty
    or unset, [api/index.go] answers a GET request with status 500 and
    the error document "Google credentials not configured", and makes no
    call: no Drive client is built. *)
Theorem missing_credentials_are_reported (MapToLower : string -> string)
    (w : World) (r : Request) :
  Method r = "GET" ->
  rootFolderOf w r <> "" ->
  Getenv w "GOOGLE_CREDENTIALS_JSON" = "" ->
  let ext := Extended.Handler MapToLower w newResponseWriter r in
  statusCode (value ext) = 500
  /\ body (value ext) = [errorDocument "Google credentials not configured"]
  /\ calls ext = [].
Proof.
  intros Hg Hroot Hc. apply String.eqb_neq in Hroot.
  cbv zeta. unfold Extended.Handler. rewrite Hg.
  cbn [String.eqb Ascii.eqb Bool.eqb negb]. fold (rootFolderOf w r).
  rewrite Hroot, Hc. repeat split; reflexivity.
Qed.

Lemma missing_credentials_are_reported_witness :
  statusCode (value (Extended.Handler id Failures.noCredentials
                       newResponseWriter (Examples.request "GET"))) = 500
  /\ body (value (Extended.Handler id Failures.noCredentials
                    newResponseWriter (Examples.request "GET")))
     = [errorDocument "Google credentials not configured"]
  /\ calls (Extended.Handler id Failures.noCredentials newResponseWriter
              (Examples.request "GET")) = [].
Proof.
  apply (missing_credentials_are_reported id Failures.noCredentials
           (Examples.request "GET")); (reflexivity || discriminate).
Defined.

(** X4. When the Drive client cannot be built from the credentials,
    [api/index.go] answers a GET request with status 500 and the error
    "Unable to create Drive client: " followed by the cause; the attempt to
    build the client is its only call, so no folder is listed. *)
Theorem client_failure_is_reported (MapToLower : string -> string)
    (w : World) (r : Request) (err : string) :
  Method r = "GET" ->
  rootFolderOf w r <> "" ->
  Getenv w "GOOGLE_CREDENTIALS_JSON" <> "" ->
  NewService w (Getenv w "GOOGLE_CREDENTIALS_JSON") = Err err ->
  let ext := Extended.Handler MapToLower w newResponseWriter r in
  statusCode (value ext) = 500
  /\ body (value ext)
     = [errorDocument ("Unable to create Drive client: " +:+ err)]
  /\ calls ext = [EvNewService (Getenv w "GOOGLE_CREDENTIALS_JSON")].
Proof.
  intros Hg Hroot Hc Hs. apply String.eqb_neq in Hroot, Hc.
  cbv zeta. unfold Extended.Handler. rewrite Hg.
  cbn [String.eqb Ascii.eqb Bool.eqb negb]. fold (rootFolderOf w r).
  rewrite Hroot, Hc. unfold drive_NewService, bind, emit, ret.
  rewrite Hs. cbn [value calls fst snd].
  repeat split; try reflexivity.
  unfold Extended.errorJSON, Extended.responseJSON, errorDocument.
  cbn. now rewrite append_empty.
Qed.

Lemma client_failure_is_reported_witness :
  statusCode (value (Extended.Handler id Failures.noClient newResponseWriter
                       (Examples.request "GET"))) = 500
  /\ body (value (Extended.Handler id Failures.noClient newResponseWriter
                    (Examples.request "GET")))
     = [errorDocument ("Unable to create Drive client: " +:+ "bad key")]
  /\ calls (Extended.Handler id Failures.noClient newResponseWriter
              (Examples.request "GET")) = [EvNewService "{}"].
Proof.
  apply (client_failure_is_reported id Failures.noClient
           (Examples.request "GET") "bad key");
    (reflexivity || discriminate).
Defined.

(** X5. Every response of either handler, on every path, is sent with the
    same header: the JSON content type and the three CORS entries. *)
Theorem every_response_has_the_cors_header (MapToLower : string -> string)
    (w : World) (r : Request) :
  sentHeader (value (Extended.Handler MapToLower w newResponseWriter r))
  = corsHeader
  /\ sentHeader (value (Basic.Handler MapToLower w newResponseWriter r))
     = corsHeader.
Proof.
  assert (header (corsHeaders newResponseWriter) = corsHeader) as Hc
    by (vm_compute; reflexivity).
  split.
  - unfold Extended.Handler.
    destruct (String.eqb (Method r) "OPTIONS"); [exact Hc|].
    destruct (String.eqb (Method r) "GET"); cbn [negb]; [|exact Hc].
    destruct (String.eqb _ ""); [exact Hc|].
    destruct (String.eqb _ ""); [exact Hc|].
    unfold drive_NewService, bind, emit, ret.
    destruct (NewService w _) as [srv|err]; [|exact Hc].
    destruct (Extended.getItems MapToLower w srv _) as [[items|err] l];
      exact Hc.
  - unfold Basic.Handler.
    destruct (String.eqb (Method r) "OPTIONS"); [exact Hc|].
    destruct (String.eqb (Method r) "GET"); cbn [negb]; [|exact Hc].
    destruct (String.eqb _ ""); [exact Hc|].
    destruct (String.eqb _ ""); [exact Hc|].
    unfold drive_NewService, bind, emit, ret.
    destruct (NewService w _) as [srv|err]; [|exact Hc].
    destruct (Basic.getItems MapToLower w srv _) as [[items|err] l];
      exact Hc.
Qed.

Lemma errorJSON_document (msg : string) :
  msg <> "" -> Extended.errorJSON msg = errorDocument msg.
Proof.
  intros H. apply String.eqb_neq in H.
  unfold Extended.errorJSON, Extended.responseJSON, errorDocument.
  cbn [Extended.Items Extended.Error]. now rewrite H.
Qed.

(** X6. A response of [api/index.go] is of one of two kinds. Either the
    status is 200 and no document of the body has an [error] member, or
    the status is 400, 405 or 500 and the body is one error document,
    whose [items] member is null and whose [error] member is not empty. *)
Theorem response_is_items_or_error (MapToLower : string -> string)
    (w : World) (r : Request) :
  let rw := value (Extended.Handler MapToLower w newResponseWriter r) in
  (statusCode rw = 200
   /\ Forall (fun doc => jsonField "error" doc = None) (body rw))
  \/ (In (statusCode rw) [400; 405; 500]
      /\ exists msg : string, msg <> "" /\ body rw = [errorDocument msg]).
Proof.
  cbv zeta. unfold Extended.Handler.
  destruct (String.eqb (Method r) "OPTIONS");
    [left; split; [reflexivity|constructor]|].
  destruct (String.eqb (Method r) "GET"); cbn [negb].
  2:{ right. split; [simpl; tauto|].
      exists "Method not allowed". split; [discriminate|reflexivity]. }
  destruct (String.eqb _ "").
  { right. split; [simpl; tauto|].
    exists "Folder ID is required". split; [discriminate|reflexivity]. }
  destruct (String.eqb _ "").
  { right. split; [simpl; tauto|].
    exists "Google credentials not configured".
    split; [discriminate|reflexivity]. }
  unfold drive_NewService, bind, emit, ret.
  destruct (NewService w _) as [srv|err].
  2:{ right. split; [simpl; tauto|].
      exists (Sprintf "Unable to create Drive client: %v" [err]).
      split; [discriminate|]. cbn [value fst body Encode WriteHeader sent
                                   corsHeaders Header_Set app].
      now rewrite errorJSON_document by discriminate. }
  unfold Extended.getItems, Files_List, bind, emit, ret.
  destruct (FilesList w srv _ _) as [folders|err].
  - destruct (Extended.eachFolder MapToLower w srv folders None)
      as [items l].
    left. split; [reflexivity|]. repeat constructor.
  - right. split; [simpl; tauto|].
    exists (Sprintf "error listing folders: %v" [err]).
    split; [discriminate|]. cbn [value fst body Encode WriteHeader sent
                                 corsHeaders Header_Set app].
    now rewrite errorJSON_document by discriminate.
Qed.

(** ** The calls of a request *)

Lemma calls_bind {A B} (m : M A) (k : A -> M B) :
  calls (bind m k) = calls m ++ calls (k (value m)).
Proof.
  unfold calls, value, bind. destruct m as [a l1].
  cbn [fst snd]. now destruct (k a).
Qed.

Lemma value_bind {A B} (m : M A) (k : A -> M B) :
  value (bind m k) = value (k (value m)).
Proof.
  unfold value, bind. destruct m as [a l1].
  cbn [fst snd]. now destruct (k a).
Qed.

Lemma foldersQuery_text (rootFolderID : string) :
  foldersQuery rootFolderID
  = "'" +:+ rootFolderID
    +:+ "' in parents and mimeType='application/vnd.google-apps.folder' and trashed=false".
Proof. reflexivity. Qed.

Lemma filesQuery_text (folderID : string) :
  filesQuery folderID = "'" +:+ folderID +:+ "' in parents and trashed=false".
Proof. reflexivity. Qed.

Lemma diagnostic_text (folder : File) (err : string) :
  EvPrintf (Sprintf processErrorFormat [Name folder; err])
  = diagnosticOf folder err.
Proof. reflexivity. Qed.

Section ExtendedCalls.
Variable MapToLower : string -> string.
Variable w : World.
Variable srv : Service.

(** The calls of one item folder: its listing, then those of reading the
    metadata, when the listing has a metadata source. *)
Lemma ext_process_calls (folderID folderName : string) :
  calls (Extended.processItemFolder MapToLower w srv folderID folderName)
  = EvFilesList (filesQuery folderID) fileFields
    :: match FilesList w srv (filesQuery folderID) fileFields with
       | Err _ => []
       | OK files =>
           let st := Extended.walkFiles files in
           if String.eqb (Extended.metadataFileID st) "" then []
           else calls (Extended.readMetadata MapToLower w srv
                         (Extended.metadataFileID st)
                         (Extended.metadataFileName st))
       end.
Proof.
  destruct (FilesList w srv (filesQuery folderID) fileFields)
    as [files|err] eqn:L.
  - rewrite (ext_process_listed MapToLower w srv _ folderName _ L).
    cbv zeta. now destruct (String.eqb _ "").
  - now rewrite (ext_process_not_listed MapToLower w srv _ folderName _ L).
Qed.

Lemma ext_eachFolder_calls (folder : File) (rest : list File)
    (items : slice Extended.Item) :
  calls (Extended.eachFolder MapToLower w srv (folder :: rest) items)
  = calls (Extended.processItemFolder MapToLower w srv
             (Id folder) (Name folder))
    ++ match snd (ext_outcome MapToLower w srv folder) with
       | Some err => [diagnosticOf folder err]
       | None => []
       end
    ++ calls (Extended.eachFolder MapToLower w srv rest
                (if ext_succeeded MapToLower w srv folder
                 then append items (fst (ext_outcome MapToLower w srv folder))
                 else items)).
Proof.
  unfold ext_succeeded, ext_outcome. cbn [Extended.eachFolder].
  rewrite calls_bind. f_equal.
  destruct (snd (value (Extended.processItemFolder MapToLower w srv
                          (Id folder) (Name folder)))) as [err|].
  - rewrite calls_bind. reflexivity.
  - reflexivity.
Qed.

Lemma ext_getItems_calls (rootFolderID : string) (folders : list File) :
  FilesList w srv (foldersQuery rootFolderID) folderFields = OK folders ->
  calls (Extended.getItems MapToLower w srv rootFolderID)
  = EvFilesList (foldersQuery rootFolderID) folderFields
    :: calls (Extended.eachFolder MapToLower w srv folders None).
Proof.
  intros L. unfold Extended.getItems, Files_List. cbv zeta.
  rewrite calls_bind, value_bind.
  change (value (ret (FilesList w srv (foldersQuery rootFolderID)
                        folderFields)))
    with (FilesList w srv (foldersQuery rootFolderID) folderFields).
  rewrite L, !calls_bind. cbn [emit ret calls snd app].
  now rewrite app_nil_r.
Qed.
End ExtendedCalls.

Section ExtendedTrace.
Variable MapToLower : string -> string.
Variable w : World.
Variable srv : Service.

Lemma ext_readMetadata_quiet (fileID fileName : string) :
  List.filter isFilesList
    (calls (Extended.readMetadata MapToLower w srv fileID fileName)) = []
  /\ List.filter isPrintf
       (calls (Extended.readMetadata MapToLower w srv fileID fileName)) = []
  /\ leftOpen w []
       (calls (Extended.readMetadata MapToLower w srv fileID fileName)) = [].
Proof.
  unfold Extended.readMetadata, Files_Download, os_WriteFile, pandoc_Output,
    os_Remove, bind, emit, ret.
  destruct (Download w srv fileID) as [data|err];
    [|repeat split; reflexivity].
  destruct (HasSuffix _ _); [|repeat split; reflexivity].
  destruct (WriteFile w _ data) as [e|] eqn:W.
  - cbn [calls snd app List.filter isFilesList isPrintf leftOpen].
    rewrite W. repeat split; reflexivity.
  - destruct (Pandoc w _ data);
      cbn [calls snd app List.filter isFilesList isPrintf leftOpen];
      rewrite W; cbn [List.filter]; rewrite String.eqb_refl;
      repeat split; reflexivity.
Qed.

Lemma ext_process_quiet (folderID folderName : string) :
  List.filter isFilesList
    (calls (Extended.processItemFolder MapToLower w srv folderID folderName))
  = [EvFilesList (filesQuery folderID) fileFields]
  /\ List.filter isPrintf
       (calls (Extended.processItemFolder MapToLower w srv
                 folderID folderName)) = []
  /\ leftOpen w []
       (calls (Extended.processItemFolder MapToLower w srv
                 folderID folderName)) = [].
Proof.
  rewrite ext_process_calls. cbn [List.filter isFilesList isPrintf leftOpen].
  destruct (FilesList w srv (filesQuery folderID) fileFields)
    as [files|err]; [|repeat split; reflexivity].
  cbv zeta. destruct (String.eqb _ ""); [repeat split; reflexivity|].
  destruct (ext_readMetadata_quiet
              (Extended.metadataFileID (Extended.walkFiles files))
              (Extended.metadataFileName (Extended.walkFiles files)))
    as (E1 & E2 & E3).
  rewrite E1, E2, E3. repeat split; reflexivity.
Qed.

Lemma leftOpen_app (l1 l2 : list Event) :
  forall opened : list string,
    leftOpen w opened (l1 ++ l2) = leftOpen w (leftOpen w opened l1) l2.
Proof.
  induction l1 as [|e l1 IH]; intros opened; [reflexivity|].
  destruct e; cbn [app leftOpen]; apply IH.
Qed.

Lemma ext_eachFolder_trace (folders : list File) :
  forall items : slice Extended.Item,
    List.filter isFilesList
      (calls (Extended.eachFolder MapToLower w srv folders items))
    = map (fun folder => EvFilesList (filesQuery (Id folder)) fileFields)
        folders
    /\ List.filter isPrintf
         (calls (Extended.eachFolder MapToLower w srv folders items))
       = flat_map
           (fun folder =>
              match snd (ext_outcome MapToLower w srv folder) with
              | Some err => [diagnosticOf folder err]
              | None => []
              end) folders
    /\ leftOpen w []
         (calls (Extended.eachFolder MapToLower w srv folders items)) = [].
Proof.
  induction folders as [|folder rest IH]; intros items;
    [repeat split; reflexivity|].
  rewrite ext_eachFolder_calls, !List.filter_app, !leftOpen_app.
  destruct (ext_process_quiet (Id folder) (Name folder)) as (E1 & E2 & E3).
  destruct (IH (if ext_succeeded MapToLower w srv folder
                then append items (fst (ext_outcome MapToLower w srv folder))
                else items)) as (I1 & I2 & I3).
  rewrite E1, E2, E3, I1, I2. cbn [map flat_map app].
  destruct (snd (ext_outcome MapToLower w srv folder)) as [err|];
    unfold diagnosticOf;
    cbn [List.filter isFilesList isPrintf leftOpen app];
    rewrite I3; repeat split; reflexivity.
Qed.
End ExtendedTrace.

(** X7. When the root listing succeeds, [getItems] of [api/index.go] lists
    the root once and then each child folder exactly once, in listing
    order, whether or not earlier folders failed: there is no retry and no
    early stop. *)
Theorem each_folder_is_listed_once (MapToLower : string -> string)
    (w : World) (srv : Service) (rootFolderID : string)
    (folders : list File) :
  FilesList w srv (foldersQuery rootFolderID) folderFields = OK folders ->
  List.filter isFilesList
    (calls (Extended.getItems MapToLower w srv rootFolderID))
  = EvFilesList (foldersQuery rootFolderID) folderFields
    :: map (fun folder => EvFilesList (filesQuery (Id folder)) fileFields)
         folders.
Proof.
  intros L. rewrite (ext_getItems_calls MapToLower w srv _ _ L).
  cbn [List.filter isFilesList]. f_equal.
  apply (ext_eachFolder_trace MapToLower w srv folders None).
Qed.

Lemma each_folder_is_listed_once_witness :
  List.filter isFilesList
    (calls (Extended.getItems id (Examples.world "root") Examples.service
              "root"))
  = [EvFilesList (foldersQuery "root") folderFields;
     EvFilesList (filesQuery "f1") fileFields;
     EvFilesList (filesQuery "f2") fileFields;
     EvFilesList (filesQuery "f3") fileFields].
Proof.
  exact (each_folder_is_listed_once id (Examples.world "root")
           Examples.service "root" Examples.children eq_refl).
Defined.

(** X8. When the root listing succeeds, [getItems] of [api/index.go]
    prints exactly one diagnostic line per child folder that failed, in
    listing order, naming the folder and the error, and prints nothing
    for the folders that succeeded. *)
Theorem one_diagnostic_per_failed_folder (MapToLower : string -> string)
    (w : World) (srv : Service) (rootFolderID : string)
    (folders : list File) :
  FilesList w srv (foldersQuery rootFolderID) folderFields = OK folders ->
  List.filter isPrintf
    (calls (Extended.getItems MapToLower w srv rootFolderID))
  = flat_map
      (fun folder =>
         match snd (ext_outcome MapToLower w srv folder) with
         | Some err => [diagnosticOf folder err]
         | None => []
         end) folders.
Proof.
  intros L. rewrite (ext_getItems_calls MapToLower w srv _ _ L).
  cbn [List.filter isPrintf].
  apply (ext_eachFolder_trace MapToLower w srv folders None).
Qed.

Lemma one_diagnostic_per_failed_folder_witness :
  List.filter isPrintf
    (calls (Extended.getItems id (Examples.world "root") Examples.service
              "root"))
  = [diagnosticOf (Examples.file "f2" "two" Examples.folderType)
       "error listing files in folder: backend error"].
Proof.
  exact (one_diagnostic_per_failed_folder id (Examples.world "root")
           Examples.service "root" Examples.children eq_refl).
Defined.

(** X9. A request to [api/index.go] leaves no temporary file behind: on
    every path, each temporary file whose write succeeded is removed by a
    later call of the same request. *)
Theorem no_temporary_file_is_left (MapToLower : string -> string)
    (w : World) (r : Request) :
  leftOpen w [] (calls (Extended.Handler MapToLower w newResponseWriter r))
  = [].
Proof.
  unfold Extended.Handler.
  destruct (String.eqb (Method r) "OPTIONS"); [reflexivity|].
  destruct (String.eqb (Method r) "GET"); cbn [negb]; [|reflexivity].
  destruct (String.eqb _ ""); [reflexivity|].
  destruct (String.eqb _ ""); [reflexivity|].
  assert (forall c, value (drive_NewService w c) = NewService w c) as Hv
    by reflexivity.
  assert (forall c, calls (drive_NewService w c) = [EvNewService c]) as Hc
    by reflexivity.
  rewrite calls_bind, Hv, Hc. cbn [app leftOpen].
  destruct (NewService w _) as [srv|err]; [|reflexivity].
  rewrite calls_bind, leftOpen_app.
  assert (leftOpen w []
            (calls (Extended.getItems MapToLower w srv
                      (if String.eqb (QueryGet r "folderId") ""
                       then Getenv w "GOOGLE_DRIVE_FOLDER_ID"
                       else QueryGet r "folderId"))) = []) as ->.
  { set (root := if String.eqb (QueryGet r "folderId") "" then _ else _).
    destruct (FilesList w srv (foldersQuery root) folderFields)
      as [folders|err] eqn:L.
    - rewrite (ext_getItems_calls MapToLower w srv _ _ L).
      cbn [leftOpen].
      apply (ext_eachFolder_trace MapToLower w srv folders None).
    - now rewrite (ext_getItems_not_listed MapToLower w srv _ _ L). }
  now destruct (value (Extended.getItems MapToLower w srv _)).
Qed.

Section BasicTrace.
Variable MapToLower : string -> string.
Variable w : World.
Variable srv : Service.

Lemma bas_process_no_files (folderID folderName : string) :
  List.filter touchesFiles
    (calls (Basic.processItemFolder MapToLower w srv folderID folderName))
  = [].
Proof.
  destruct (FilesList w srv (filesQuery folderID) fileFields)
    as [files|err] eqn:L.
  - rewrite (bas_process_listed MapToLower w srv _ folderName _ L).
    cbv zeta. destruct (String.eqb _ ""); [reflexivity|].
    cbn [calls snd]. now rewrite bas_readMetadata_one_download.
  - now rewrite (bas_process_not_listed MapToLower w srv _ folderName _ L).
Qed.

Lemma bas_eachFolder_no_files (folders : list File) :
  forall items : slice Basic.Item,
    List.filter touchesFiles
      (calls (Basic.eachFolder MapToLower w srv folders items)) = [].
Proof.
  induction folders as [|folder rest IH]; intros items; [reflexivity|].
  cbn [Basic.eachFolder].
  rewrite calls_bind, List.filter_app, bas_process_no_files.
  destruct (snd (value (Basic.processItemFolder MapToLower w srv
                          (Id folder) (Name folder)))) as [err|].
  - rewrite calls_bind, List.filter_app, IH. reflexivity.
  - apply IH.
Qed.

Lemma bas_getItems_no_files (rootFolderID : string) :
  List.filter touchesFiles
    (calls (Basic.getItems MapToLower w srv rootFolderID)) = [].
Proof.
  destruct (FilesList w srv (foldersQuery rootFolderID) folderFields)
    as [folders|err] eqn:L.
  - unfold Basic.getItems, Files_List. cbv zeta.
    rewrite calls_bind, value_bind.
    change (value (ret (FilesList w srv (foldersQuery rootFolderID)
                          folderFields)))
      with (FilesList w srv (foldersQuery rootFolderID) folderFields).
    rewrite L, !calls_bind, !List.filter_app, bas_eachFolder_no_files.
    reflexivity.
  - now rewrite (bas_getItems_not_listed MapToLower w srv _ _ L).
Qed.
End BasicTrace.

(** X10. The earlier handler never writes, converts or removes a file: on
    every request its calls are the construction of the Drive client,
    listings, downloads and diagnostic lines only. *)
Theorem earlier_handler_touches_no_file (MapToLower : string -> string)
    (w : World) (r : Request) :
  List.filter touchesFiles
    (calls (Basic.Handler MapToLower w newResponseWriter r)) = [].
Proof.
  unfold Basic.Handler.
  destruct (String.eqb (Method r) "OPTIONS"); [reflexivity|].
  destruct (String.eqb (Method r) "GET"); cbn [negb]; [|reflexivity].
  destruct (String.eqb _ ""); [reflexivity|].
  destruct (String.eqb _ ""); [reflexivity|].
  assert (forall c, value (drive_NewService w c) = NewService w c) as Hv
    by reflexivity.
  assert (forall c, calls (drive_NewService w c) = [EvNewService c]) as Hc
    by reflexivity.
  rewrite calls_bind, Hv, Hc. cbn [app List.filter touchesFiles].
  destruct (NewService w _) as [srv|err]; [|reflexivity].
  rewrite calls_bind, List.filter_app, bas_getItems_no_files.
  now destruct (value (Basic.getItems MapToLower w srv _)).
Qed.

(** X11. The folder id of the [folderId] query parameter, when present,
    names the root folder whatever the environment holds: after building
    the client, [api/index.go] asks Drive for the non-trashed folders whose
    parent is that id, the id being inserted in the query as it is. *)
Theorem query_parameter_names_the_root (MapToLower : string -> string)
    (w : World) (r : Request) (srv : Service) :
  Method r = "GET" ->
  QueryGet r "folderId" <> "" ->
  Getenv w "GOOGLE_CREDENTIALS_JSON" <> "" ->
  NewService w (Getenv w "GOOGLE_CREDENTIALS_JSON") = OK srv ->
  exists rest : list Event,
    calls (Extended.Handler MapToLower w newResponseWriter r)
    = EvNewService (Getenv w "GOOGLE_CREDENTIALS_JSON")
      :: EvFilesList
           ("'" +:+ QueryGet r "folderId"
            +:+ "' in parents and mimeType='application/vnd.google-apps.folder' and trashed=false")
           "files(id, name)"
      :: rest.
Proof.
  intros Hg Hq Hc Hs. apply String.eqb_neq in Hq, Hc.
  unfold Extended.Handler. rewrite Hg.
  cbn [String.eqb Ascii.eqb Bool.eqb negb]. rewrite Hq, Hq, Hc.
  assert (forall c, value (drive_NewService w c) = NewService w c) as Hv
    by reflexivity.
  assert (forall c, calls (drive_NewService w c) = [EvNewService c]) as Hn
    by reflexivity.
  rewrite calls_bind, Hv, Hn, Hs, calls_bind. cbn [app].
  unfold Extended.getItems at 1, Files_List. cbv zeta.
  rewrite !calls_bind. cbn [emit calls snd app].
  rewrite <- foldersQuery_text. eexists. reflexivity.
Qed.

Lemma query_parameter_names_the_root_witness :
  exists rest : list Event,
    calls (Extended.Handler id (Examples.world "elsewhere") newResponseWriter
             {| Method := "GET"; QueryGet := fun _ => "root" |})
    = EvNewService "{}"
      :: EvFilesList
           ("'" +:+ "root"
            +:+ "' in parents and mimeType='application/vnd.google-apps.folder' and trashed=false")
           "files(id, name)"
      :: rest.
Proof.
  apply (query_parameter_names_the_root id (Examples.world "elsewhere")
           {| Method := "GET"; QueryGet := fun _ => "root" |}
           Examples.service); (reflexivity || discriminate).
Defined.

(** ** Null and empty sequences in the response *)

(** X12. On a successful walk [api/index.go] answers 200 with one document
    whose only member is [items]. That member is JSON null, not an empty
    array, when no child folder was processed successfully (in particular
    when the root has no child folder), and otherwise an array with one
    object per successful folder, in listing order. *)
Theorem items_is_null_without_successful_folder
    (MapToLower : string -> string) (w : World) (r : Request) (srv : Service)
    (folders : list File) :
  Method r = "GET" ->
  rootFolderOf w r <> "" ->
  Getenv w "GOOGLE_CREDENTIALS_JSON" <> "" ->
  NewService w (Getenv w "GOOGLE_CREDENTIALS_JSON") = OK srv ->
  FilesList w srv (foldersQuery (rootFolderOf w r)) folderFields
  = OK folders ->
  let rw := value (Extended.Handler MapToLower w newResponseWriter r) in
  statusCode rw = 200
  /\ body rw
     = [JObject
          [("items",
            match List.filter (ext_succeeded MapToLower w srv) folders with
            | [] => JNull
            | succeeded =>
                JArray
                  (map (fun folder =>
                          Extended.itemJSON
                            (fst (ext_outcome MapToLower w srv folder)))
                     succeeded)
            end)]].
Proof.
  intros Hg Hroot Hc Hs L.
  destruct (folder_failures_are_isolated MapToLower w r srv Hg Hroot Hc Hs
              folders L) as (E1 & E2 & _).
  cbv zeta. split; [exact E1|]. rewrite E2.
  unfold Extended.responseJSON, ext_successes.
  cbn [Extended.Items Extended.Error String.eqb].
  destruct (List.filter (ext_succeeded MapToLower w srv) folders);
    [reflexivity|].
  cbn [map]. now rewrite map_map.
Qed.

Lemma items_is_null_without_successful_folder_witness :
  statusCode (value (Extended.Handler id (Failures.docxWorld false)
                       newResponseWriter (Examples.request "GET"))) = 200
  /\ body (value (Extended.Handler id (Failures.docxWorld false)
                    newResponseWriter (Examples.request "GET")))
     = [JObject [("items", JNull)]].
Proof.
  apply (items_is_null_without_successful_folder id
           (Failures.docxWorld false) (Examples.request "GET")
           Examples.service
           [Examples.file "g" "doc" Examples.folderType]);
    (reflexivity || discriminate).
Defined.

(** X13. The [imageUrls] member of an item, and in [api/index.go] its
    [videoUrls] member, is never null: whatever the folder holds and
    whether or not its processing fails, the item that [processItemFolder]
    returns carries allocated sequences, which are written as arrays. *)
Theorem media_members_are_never_null (MapToLower : string -> string)
    (w : World) (srv : Service) (folderID folderName : string) :
  let ext := fst (value (Extended.processItemFolder MapToLower w srv
                           folderID folderName)) in
  let bas := fst (value (Basic.processItemFolder MapToLower w srv
                           folderID folderName)) in
  (exists images videos : list string,
      Extended.ImageURLs ext = Some images
      /\ Extended.VideoURLs ext = Some videos
      /\ jsonField "imageUrls" (Extended.itemJSON ext)
         = Some (JArray (map JString images))
      /\ jsonField "videoUrls" (Extended.itemJSON ext)
         = Some (JArray (map JString videos)))
  /\ (exists images : list string,
         Basic.ImageURLs bas = Some images
         /\ jsonField "imageUrls" (Basic.itemJSON bas)
            = Some (JArray (map JString images))).
Proof.
  cbv zeta.
  destruct (FilesList w srv (filesQuery folderID) fileFields)
    as [files|err] eqn:L.
  - destruct (ext_urls_classified MapToLower w srv folderID folderName files
                L) as [Ei Ev].
    pose proof (bas_urls_classified MapToLower w srv folderID folderName files
                  L) as Eb.
    split.
    + eexists. eexists. split; [exact Ei|]. split; [exact Ev|].
      unfold Extended.itemJSON. cbn [jsonField List.find fst snd String.eqb
                                     Ascii.eqb Bool.eqb fmap option_fmap
                                     option_map].
      now rewrite Ei, Ev.
    + eexists. split; [exact Eb|].
      unfold Basic.itemJSON. cbn [jsonField List.find fst snd String.eqb
                                  Ascii.eqb Bool.eqb fmap option_fmap
                                  option_map].
      now rewrite Eb.
  - rewrite (ext_process_not_listed MapToLower w srv _ folderName _ L).
    rewrite (bas_process_not_listed MapToLower w srv _ folderName _ L).
    split; [exists [], []|exists []]; repeat split; reflexivity.
Qed.

(** ** The metadata parser on composed texts *)

Lemma linesOf_nonempty (s : string) : Spec.linesOf s <> [].
Proof.
  induction s as [|c r IH]; simpl; [discriminate|].
  destruct (Ascii.eqb c newline); [discriminate|].
  destruct (Spec.linesOf r); [contradiction|discriminate].
Qed.

Lemma linesOf_app (a b : string) :
  Spec.linesOf (a +:+ String newline b) = Spec.linesOf a ++ Spec.linesOf b.
Proof.
  induction a as [|c r IH].
  - change (Spec.linesOf (String newline b) = [""] ++ Spec.linesOf b).
    cbn [Spec.linesOf]. now rewrite Ascii.eqb_refl.
  - change (String c r +:+ String newline b)
      with (String c (r +:+ String newline b)).
    cbn [Spec.linesOf]. rewrite IH.
    destruct (Ascii.eqb c newline); [reflexivity|].
    pose proof (linesOf_nonempty r) as Hne.
    destruct (Spec.linesOf r); [contradiction|reflexivity].
Qed.

Section ParserComposition.
Variable MapToLower : string -> string.

Lemma fold_parseLine_union (lines : list string) (m : gmap string string) :
  fold_left (parseLine MapToLower) lines m
  = fold_left (parseLine MapToLower) lines ∅ ∪ m.
Proof.
  apply map_eq. intros key.
  rewrite lookup_union, !fold_parseLine_lookup, lookup_empty.
  destruct (Spec.lastValue key _); [|now rewrite (left_id None _)].
  now destruct (m !! key).
Qed.

Lemma parseMetadata_app (a b : string) :
  parseMetadata MapToLower (a +:+ String newline b)
  = parseMetadata MapToLower b ∪ parseMetadata MapToLower a.
Proof.
  unfold parseMetadata. rewrite !Split_linesOf, linesOf_app, fold_left_app.
  apply fold_parseLine_union.
Qed.
End ParserComposition.

(** X14. Parsing two texts joined by a newline gives the mapping of the
    second text completed by that of the first: on a key both texts set,
    the later text wins, and the other keys are kept. *)
Theorem parseMetadata_of_joined_texts (MapToLower : string -> string)
    (a b : string) :
  parseMetadata MapToLower (a +:+ String newline b)
  = parseMetadata MapToLower b ∪ parseMetadata MapToLower a
  /\ (forall key : string,
         parseMetadata MapToLower (a +:+ String newline b) !! key
         = match parseMetadata MapToLower b !! key with
           | Some v => Some v
           | None => parseMetadata MapToLower a !! key
           end).
Proof.
  split; [apply parseMetadata_app|].
  intros key. rewrite parseMetadata_app, lookup_union.
  destruct (parseMetadata MapToLower b !! key);
    [now destruct (parseMetadata MapToLower a !! key)|].
  now rewrite (left_id None _).
Qed.

Lemma hasByte_In (c : ascii) (s : string) :
  Spec.hasByte c s = true <-> In c (toBytes s).
Proof.
  induction s as [|d r IH]; simpl; [split; [discriminate|tauto]|].
  rewrite orb_true_iff, IH, Ascii.eqb_eq. tauto.
Qed.

Lemma toBytes_ofBytes (l : list ascii) : toBytes (ofBytes l) = l.
Proof. induction l as [|c l IH]; simpl; [reflexivity|now rewrite IH]. Qed.

Lemma stripPrefix_In (p l l' : list ascii) (x : ascii) :
  stripPrefix p l = Some l' -> In x l' -> In x l.
Proof.
  revert l. induction p as [|c p IH]; intros l H Hx; simpl in H.
  - now injection H as ->.
  - destruct l as [|d l0]; [discriminate|].
    destruct (Ascii.eqb c d); [|discriminate].
    right. now apply IH.
Qed.

Lemma stripSpace_In (dir : list ascii -> list ascii) (encs : list (list nat))
    (l l' : list ascii) (x : ascii) :
  stripSpace dir encs l = Some l' -> In x l' -> In x l.
Proof.
  induction encs as [|e rest IH]; simpl; [discriminate|].
  destruct (stripPrefix (dir (map byte e)) l) as [l0|] eqn:E; [|exact IH].
  intros [= <-]. now apply stripPrefix_In with (p := dir (map byte e)).
Qed.

Lemma trimFuel_In (dir : list ascii -> list ascii) (x : ascii) (fuel : nat) :
  forall l : list ascii, In x (trimFuel dir fuel l) -> In x l.
Proof.
  induction fuel as [|k IH]; intros l; cbn [trimFuel]; [tauto|].
  destruct (stripSpace dir spaceEncodings l) as [l'|] eqn:E; [|tauto].
  intros Hx. apply (stripSpace_In _ _ _ _ _ E). now apply IH.
Qed.

(** [TrimSpace] only removes bytes. *)
Lemma TrimSpace_hasByte (c : ascii) (s : string) :
  Spec.hasByte c (TrimSpace s) = true -> Spec.hasByte c s = true.
Proof.
  rewrite !hasByte_In. unfold TrimSpace, trimRight, trimLeft.
  rewrite toBytes_ofBytes, <- in_rev. intros H.
  apply trimFuel_In in H. rewrite <- in_rev in H.
  now apply trimFuel_In in H.
Qed.

Lemma linesOf_hasByte (c : ascii) (s : string) :
  Spec.hasByte c s = false ->
  Forall (fun line => Spec.hasByte c line = false) (Spec.linesOf s).
Proof.
  induction s as [|d r IH]; intros H.
  - repeat constructor.
  - cbn [Spec.hasByte] in H. apply orb_false_iff in H as [Hd Hr].
    specialize (IH Hr). cbn [Spec.linesOf].
    destruct (Ascii.eqb d newline); [constructor; [reflexivity|exact IH]|].
    destruct (Spec.linesOf r) as [|l ls].
    + repeat constructor. cbn [Spec.hasByte]. now rewrite Hd.
    + inversion IH as [|? ? Hl Hls]; subst.
      constructor; [|exact Hls]. cbn [Spec.hasByte]. now rewrite Hd, Hl.
Qed.

Lemma entry_without_colon (MapToLower : string -> string) (line : string) :
  Spec.hasByte colon line = false -> Spec.entry MapToLower line = None.
Proof.
  intros H. unfold Spec.entry.
  destruct (String.eqb (TrimSpace line) ""); [reflexivity|].
  destruct (Spec.hasByte colon (TrimSpace line)) eqn:E; [|reflexivity].
  apply TrimSpace_hasByte in E. congruence.
Qed.

Lemma parseMetadata_without_colon (MapToLower : string -> string)
    (text : string) :
  Spec.hasByte colon text = false -> parseMetadata MapToLower text = ∅.
Proof.
  intros H. unfold parseMetadata. rewrite Split_linesOf.
  apply linesOf_hasByte in H. generalize (∅ : gmap string string).
  induction H as [|line rest Hl _ IH]; intros m; [reflexivity|].
  cbn [fold_left]. rewrite parseLine_entry, entry_without_colon by exact Hl.
  apply IH.
Qed.

(** X15. Text without a colon sets no key, however many lines it has, and
    inserting such text as lines of their own between two texts does not
    change the mapping: lines that are not of the form key: value are
    skipped without affecting the others. *)
Theorem text_without_colon_is_ignored (MapToLower : string -> string)
    (junk : string) :
  Spec.hasByte colon junk = false ->
  parseMetadata MapToLower junk = ∅
  /\ (forall a b : string,
         parseMetadata MapToLower
           (a +:+ String newline (junk +:+ String newline b))
         = parseMetadata MapToLower (a +:+ String newline b)).
Proof.
  intros H. split; [now apply parseMetadata_without_colon|].
  intros a b. rewrite !parseMetadata_app.
  rewrite (parseMetadata_without_colon MapToLower junk H).
  now rewrite (right_id ∅ _).
Qed.

Lemma text_without_colon_is_ignored_witness :
  parseMetadata id "just a note" = ∅
  /\ (forall a b : string,
         parseMetadata id
           (a +:+ String newline ("just a note" +:+ String newline b))
         = parseMetadata id (a +:+ String newline b)).
Proof.
  exact (text_without_colon_is_ignored id "just a note" eq_refl).
Defined.

(** ** URLs identify files *)

Lemma toBytes_append (a b : string) :
  toBytes (a +:+ b) = toBytes a ++ toBytes b.
Proof.
  induction a as [|c r IH]; [reflexivity|].
  change (toBytes (String c (r +:+ b)) = c :: toBytes r ++ toBytes b).
  cbn [toBytes]. now rewrite IH.
Qed.

Lemma toBytes_inj (a b : string) : toBytes a = toBytes b -> a = b.
Proof.
  revert b. induction a as [|c r IH]; intros [|d b] H;
    try discriminate; [reflexivity|].
  cbn [toBytes] in H. injection H as -> H. f_equal. now apply IH.
Qed.

Lemma append_inv_head (p a b : string) : p +:+ a = p +:+ b -> a = b.
Proof.
  intros H. apply toBytes_inj.
  apply (f_equal toBytes) in H. rewrite !toBytes_append in H.
  now apply app_inv_head in H.
Qed.

Lemma append_inv_tail (a b s : string) : a +:+ s = b +:+ s -> a = b.
Proof.
  intros H. apply toBytes_inj.
  apply (f_equal toBytes) in H. rewrite !toBytes_append in H.
  now apply app_inv_tail in H.
Qed.

Lemma getImageURL_text (fileID : string) :
  getImageURL fileID = "https://drive.google.com/uc?export=view&id=" +:+ fileID.
Proof. unfold getImageURL. simpl. now rewrite append_empty. Qed.

Lemma getVideoURL_text (fileID : string) :
  Extended.getVideoURL fileID
  = "https://drive.google.com/file/d/" +:+ (fileID +:+ "/preview").
Proof. reflexivity. Qed.

(** X16. The URLs identify the files: two ids with the same image URL, or
    with the same video URL, are equal, and no image URL is a video
    URL. *)
Theorem urls_identify_files :
  (forall a b : string, getImageURL a = getImageURL b -> a = b)
  /\ (forall a b : string,
         Extended.getVideoURL a = Extended.getVideoURL b -> a = b)
  /\ (forall a b : string, getImageURL a <> Extended.getVideoURL b).
Proof.
  split; [|split].
  - intros a b H. rewrite !getImageURL_text in H.
    now apply append_inv_head in H.
  - intros a b H. rewrite !getVideoURL_text in H.
    apply append_inv_head in H. now apply append_inv_tail in H.
  - intros a b H. rewrite getImageURL_text, getVideoURL_text in H.
    apply (f_equal toBytes) in H. cbn in H. discriminate H.
Qed.

(** ** From the metadata file to the item *)

Section MetadataSource.
Variable MapToLower : string -> string.
Variable w : World.
Variable srv : Service.
Variables folderID folderName : string.
Variables pre post : list File.
Variable f : File.
Hypothesis listed :
  FilesList w srv (filesQuery folderID) fileFields = OK (pre ++ f :: post).
Hypothesis last_source :
  Spec.noMetadataFile Extended.isMetadataName post = true.
Hypothesis has_id : Id f <> "".

Lemma ext_process_with_source :
  Extended.isMetadataName (Name f) = true ->
  let st := Extended.walkFiles (pre ++ f :: post) in
  let md := Extended.readMetadata MapToLower w srv (Id f) (Name f) in
  Extended.processItemFolder MapToLower w srv folderID folderName
  = (match value md with
     | Err err =>
         (Extended.item st, Some (Sprintf "error reading metadata: %v" [err]))
     | OK metadata => (Extended.setMetadata (Extended.item st) metadata, None)
     end,
     EvFilesList (filesQuery folderID) fileFields :: calls md).
Proof.
  intros Hf. cbv zeta.
  rewrite (ext_process_listed MapToLower w srv _ folderName _ listed).
  cbv zeta.
  destruct (ext_walk_last_metadata pre post f
              {| Extended.item := Extended.emptyItem;
                 Extended.metadataFileID := "";
                 Extended.metadataFileName := "" |} Hf last_source)
    as [E1 E2].
  fold (Extended.walkFiles (pre ++ f :: post)) in E1, E2.
  apply String.eqb_neq in has_id. now rewrite E1, E2, has_id.
Qed.

Lemma bas_process_with_source :
  Name f = "metadata.txt" ->
  let st := Basic.walkFiles (pre ++ f :: post) in
  let md := Basic.readMetadata MapToLower w srv (Id f) in
  Basic.processItemFolder MapToLower w srv folderID folderName
  = (match value md with
     | Err err =>
         (Basic.item st, Some (Sprintf "error reading metadata: %v" [err]))
     | OK metadata => (Basic.setMetadata (Basic.item st) metadata, None)
     end,
     EvFilesList (filesQuery folderID) fileFields :: calls md).
Proof.
  intros Hn. cbv zeta.
  rewrite (bas_process_listed MapToLower w srv _ folderName _ listed).
  cbv zeta.
  assert (Basic.isMetadataName (Name f) = true) as Hf
    by (rewrite Hn; reflexivity).
  pose proof (bas_walk_last_metadata pre post f
                {| Basic.item := Basic.emptyItem;
                   Basic.metadataFileID := "" |} Hf
                (noMetadataFile_basic _ last_source)) as E1.
  fold (Basic.walkFiles (pre ++ f :: post)) in E1.
  apply String.eqb_neq in has_id. now rewrite E1, has_id.
Qed.

(** X17. When the metadata source of a folder is a [metadata.txt] whose
    download succeeds, both handlers make two calls, the listing and that
    download, and return without error an item whose four fields are the
    values of the keys title, subtitle, description and code in the
    parsed text, a missing key giving the empty string. *)
Theorem text_metadata_fills_the_fields (text : string) :
  Name f = "metadata.txt" ->
  Download w srv (Id f) = OK text ->
  let ext := Extended.processItemFolder MapToLower w srv
               folderID folderName in
  let bas := Basic.processItemFolder MapToLower w srv folderID folderName in
  let metadata := parseMetadata MapToLower text in
  let wanted := [at_key metadata "title"; at_key metadata "subtitle";
                 at_key metadata "description"; at_key metadata "code"] in
  calls ext = [EvFilesList (filesQuery folderID) fileFields;
               EvDownload (Id f)]
  /\ snd (value ext) = None
  /\ Extended.fields (fst (value ext)) = wanted
  /\ calls bas = calls ext
  /\ snd (value bas) = None
  /\ Basic.fields (fst (value bas)) = wanted.
Proof.
  intros Hn Hd. cbv zeta.
  rewrite ext_process_with_source by (rewrite Hn; reflexivity).
  rewrite (bas_process_with_source Hn). cbv zeta.
  unfold Extended.readMetadata, Basic.readMetadata, Files_Download, bind,
    emit, ret.
  rewrite Hd, Hn. repeat split; reflexivity.
Qed.

(** X18. When the metadata source is a [metadata.docx], [api/index.go]
    downloads it, writes the bytes to /tmp/metadata_<id>.docx, runs pandoc
    on that file and removes it; when these succeed the item's fields are
    read from pandoc's output, not from the downloaded bytes. *)
Theorem document_metadata_goes_through_pandoc (data text : string) :
  Name f = "metadata.docx" ->
  Download w srv (Id f) = OK data ->
  WriteFile w (tmpFileOf (Id f)) data = None ->
  Pandoc w (tmpFileOf (Id f)) data = OK text ->
  let ext := Extended.processItemFolder MapToLower w srv
               folderID folderName in
  let metadata := parseMetadata MapToLower text in
  calls ext = [EvFilesList (filesQuery folderID) fileFields;
               EvDownload (Id f);
               EvWriteFile (tmpFileOf (Id f)) data;
               EvPandoc (tmpFileOf (Id f));
               EvRemove (tmpFileOf (Id f))]
  /\ snd (value ext) = None
  /\ Extended.fields (fst (value ext))
     = [at_key metadata "title"; at_key metadata "subtitle";
        at_key metadata "description"; at_key metadata "code"].
Proof.
  intros Hn Hd Hw Hp. cbv zeta.
  rewrite ext_process_with_source by (rewrite Hn; reflexivity).
  cbv zeta.
  unfold Extended.readMetadata, Files_Download, os_WriteFile, pandoc_Output,
    os_Remove, bind, emit, ret.
  rewrite Hd, Hn.
  change (Sprintf "/tmp/metadata_%s.docx" [Id f]) with (tmpFileOf (Id f)).
  change (HasSuffix (ToLower MapToLower "metadata.docx") ".docx") with true.
  cbv iota. rewrite Hw, Hp. repeat split; reflexivity.
Qed.

(** X19. When pandoc fails on a [metadata.docx], [api/index.go] still
    removes the temporary file, and the folder fails with the error
    "error reading metadata: error running pandoc: " followed by the
    cause. *)
Theorem failed_conversion_removes_the_file (data err : string) :
  Name f = "metadata.docx" ->
  Download w srv (Id f) = OK data ->
  WriteFile w (tmpFileOf (Id f)) data = None ->
  Pandoc w (tmpFileOf (Id f)) data = Err err ->
  let ext := Extended.processItemFolder MapToLower w srv
               folderID folderName in
  calls ext = [EvFilesList (filesQuery folderID) fileFields;
               EvDownload (Id f);
               EvWriteFile (tmpFileOf (Id f)) data;
               EvPandoc (tmpFileOf (Id f));
               EvRemove (tmpFileOf (Id f))]
  /\ snd (value ext)
     = Some ("error reading metadata: error running pandoc: " +:+ err).
Proof.
  intros Hn Hd Hw Hp. cbv zeta.
  rewrite ext_process_with_source by (rewrite Hn; reflexivity).
  cbv zeta.
  unfold Extended.readMetadata, Files_Download, os_WriteFile, pandoc_Output,
    os_Remove, bind, emit, ret.
  rewrite Hd, Hn.
  change (Sprintf "/tmp/metadata_%s.docx" [Id f]) with (tmpFileOf (Id f)).
  change (HasSuffix (ToLower MapToLower "metadata.docx") ".docx") with true.
  cbv iota. rewrite Hw, Hp. split; [reflexivity|].
  cbn. now rewrite !append_empty.
Qed.

(** X20. When the temporary file of a [metadata.docx] cannot be written,
    [api/index.go] runs neither pandoc nor the removal of the file, and
    the folder fails with the error "error reading metadata: error writing
    temp file: " followed by the cause. *)
Theorem failed_write_stops_the_conversion (data err : string) :
  Name f = "metadata.docx" ->
  Download w srv (Id f) = OK data ->
  WriteFile w (tmpFileOf (Id f)) data = Some err ->
  let ext := Extended.processItemFolder MapToLower w srv
               folderID folderName in
  calls ext = [EvFilesList (filesQuery folderID) fileFields;
               EvDownload (Id f);
               EvWriteFile (tmpFileOf (Id f)) data]
  /\ snd (value ext)
     = Some ("error reading metadata: error writing temp file: " +:+ err).
Proof.
  intros Hn Hd Hw. cbv zeta.
  rewrite ext_process_with_source by (rewrite Hn; reflexivity).
  cbv zeta.
  unfold Extended.readMetadata, Files_Download, os_WriteFile, pandoc_Output,
    os_Remove, bind, emit, ret.
  rewrite Hd, Hn.
  change (Sprintf "/tmp/metadata_%s.docx" [Id f]) with (tmpFileOf (Id f)).
  change (HasSuffix (ToLower MapToLower "metadata.docx") ".docx") with true.
  cbv iota. rewrite Hw. split; [reflexivity|].
  cbn. now rewrite !append_empty.
Qed.

(** X21. When the download of the metadata source fails, nothing else is
    attempted and the folder fails, in both handlers, with the error
    "error reading metadata: " followed by the cause of the download. *)
Theorem failed_download_fails_the_folder (err : string) :
  Name f = "metadata.txt" ->
  Download w srv (Id f) = Err err ->
  let ext := Extended.processItemFolder MapToLower w srv
               folderID folderName in
  let bas := Basic.processItemFolder MapToLower w srv folderID folderName in
  calls ext = [EvFilesList (filesQuery folderID) fileFields;
               EvDownload (Id f)]
  /\ snd (value ext) = Some ("error reading metadata: " +:+ err)
  /\ calls bas = calls ext
  /\ snd (value bas) = Some ("error reading metadata: " +:+ err).
Proof.
  intros Hn Hd. cbv zeta.
  rewrite ext_process_with_source by (rewrite Hn; reflexivity).
  rewrite (bas_process_with_source Hn). cbv zeta.
  unfold Extended.readMetadata, Basic.readMetadata, Files_Download, bind,
    emit, ret.
  rewrite Hd. cbn [value calls fst snd app].
  repeat split; try reflexivity; cbn; now rewrite !append_empty.
Qed.
End MetadataSource.

Lemma text_metadata_fills_the_fields_witness :
  calls (Extended.processItemFolder id (Examples.world "root")
           Examples.service "f3" "three")
  = [EvFilesList (filesQuery "f3") fileFields; EvDownload "m2"]
  /\ snd (value (Extended.processItemFolder id (Examples.world "root")
                   Examples.service "f3" "three")) = None
  /\ Extended.fields
       (fst (value (Extended.processItemFolder id (Examples.world "root")
                      Examples.service "f3" "three")))
     = ["C"; "B"; ""; ""].
Proof.
  assert ("m2" <> "") as Hid by discriminate.
  pose proof (text_metadata_fills_the_fields id (Examples.world "root")
                Examples.service "f3" "three"
                [Examples.file "m1" "metadata.txt" "text/plain";
                 Examples.file "d" "cover.jpg" "image/jpeg"]
                []
                (Examples.file "m2" "metadata.txt" "image/png")
                eq_refl eq_refl Hid specExample eq_refl eq_refl)
    as (H1 & H2 & H3 & _).
  split; [exact H1|]. split; [exact H2|exact H3].
Defined.

Lemma document_metadata_goes_through_pandoc_witness :
  calls (Extended.processItemFolder id (Failures.docxWorld true)
           Examples.service "g" "doc")
  = [EvFilesList (filesQuery "g") fileFields; EvDownload "x";
     EvWriteFile (tmpFileOf "x") "PK-bytes"; EvPandoc (tmpFileOf "x");
     EvRemove (tmpFileOf "x")]
  /\ snd (value (Extended.processItemFolder id (Failures.docxWorld true)
                   Examples.service "g" "doc")) = None
  /\ Extended.fields
       (fst (value (Extended.processItemFolder id (Failures.docxWorld true)
                      Examples.service "g" "doc")))
     = ["Doc"; ""; ""; ""].
Proof.
  assert ("x" <> "") as Hid by discriminate.
  exact (document_metadata_goes_through_pandoc id (Failures.docxWorld true)
           Examples.service "g" "doc"
           [Examples.file "p" "pic.gif" "image/gif"] []
           (Examples.file "x" "metadata.docx"
              "application/vnd.openxmlformats-officedocument.wordprocessingml.document")
           eq_refl eq_refl Hid "PK-bytes" "Title: Doc"
           eq_refl eq_refl eq_refl eq_refl).
Defined.

Lemma failed_conversion_removes_the_file_witness :
  calls (Extended.processItemFolder id (Failures.docxWorld false)
           Examples.service "g" "doc")
  = [EvFilesList (filesQuery "g") fileFields; EvDownload "x";
     EvWriteFile (tmpFileOf "x") "PK-bytes"; EvPandoc (tmpFileOf "x");
     EvRemove (tmpFileOf "x")]
  /\ snd (value (Extended.processItemFolder id (Failures.docxWorld false)
                   Examples.service "g" "doc"))
     = Some ("error reading metadata: error running pandoc: "
             +:+ "exit status 1").
Proof.
  assert ("x" <> "") as Hid by discriminate.
  exact (failed_conversion_removes_the_file id (Failures.docxWorld false)
           Examples.service "g" "doc"
           [Examples.file "p" "pic.gif" "image/gif"] []
           (Examples.file "x" "metadata.docx"
              "application/vnd.openxmlformats-officedocument.wordprocessingml.document")
           eq_refl eq_refl Hid "PK-bytes" "exit status 1"
           eq_refl eq_refl eq_refl eq_refl).
Defined.

Lemma failed_write_stops_the_conversion_witness :
  calls (Extended.processItemFolder id Failures.diskFull
           Examples.service "g" "doc")
  = [EvFilesList (filesQuery "g") fileFields; EvDownload "x";
     EvWriteFile (tmpFileOf "x") "PK-bytes"]
  /\ snd (value (Extended.processItemFolder id Failures.diskFull
                   Examples.service "g" "doc"))
     = Some ("error reading metadata: error writing temp file: "
             +:+ "no space left on device").
Proof.
  assert ("x" <> "") as Hid by discriminate.
  exact (failed_write_stops_the_conversion id Failures.diskFull
           Examples.service "g" "doc"
           [Examples.file "p" "pic.gif" "image/gif"] []
           (Examples.file "x" "metadata.docx"
              "application/vnd.openxmlformats-officedocument.wordprocessingml.document")
           eq_refl eq_refl Hid "PK-bytes" "no space left on device"
           eq_refl eq_refl eq_refl).
Defined.

Lemma failed_download_fails_the_folder_witness :
  calls (Extended.processItemFolder id Failures.lostFile
           Examples.service "h" "lost")
  = [EvFilesList (filesQuery "h") fileFields; EvDownload "gone"]
  /\ snd (value (Extended.processItemFolder id Failures.lostFile
                   Examples.service "h" "lost"))
     = Some ("error reading metadata: " +:+ "not found")
  /\ calls (Basic.processItemFolder id Failures.lostFile
              Examples.service "h" "lost")
     = calls (Extended.processItemFolder id Failures.lostFile
                Examples.service "h" "lost")
  /\ snd (value (Basic.processItemFolder id Failures.lostFile
                   Examples.service "h" "lost"))
     = Some ("error reading metadata: " +:+ "not found").
Proof.
  assert ("gone" <> "") as Hid by discriminate.
  exact (failed_download_fails_the_folder id Failures.lostFile
           Examples.service "h" "lost" [] []
           (Examples.file "gone" "metadata.txt" "text/plain")
           eq_refl eq_refl Hid "not found" eq_refl eq_refl).
Defined.

(** ** One key: value line *)

Section AroundAByte.
(** A byte [c] that occurs in no white-space encoding, such as the colon. *)
Variable c : ascii.
Variable dir : list ascii -> list ascii.
Hypothesis not_space :
  Forall (fun e => ~ In c (dir (map byte e))) spaceEncodings.
Hypothesis dir_length : forall l, length (dir l) = length l.

Lemma stripPrefix_before (p : list ascii) (b : list ascii) :
  ~ In c p ->
  forall a : list ascii,
    stripPrefix p (a ++ c :: b)
    = option_map (fun a' => a' ++ c :: b) (stripPrefix p a).
Proof.
  induction p as [|x p IH]; intros Hc a; [reflexivity|].
  destruct a as [|d a]; cbn [app stripPrefix].
  - destruct (Ascii.eqb_spec x c) as [->|_]; [|reflexivity].
    exfalso. apply Hc. now left.
  - destruct (Ascii.eqb x d); [|reflexivity].
    apply IH. intros H. apply Hc. now right.
Qed.

Lemma stripSpace_before_in (encs : list (list nat)) (a b : list ascii) :
  Forall (fun e => ~ In c (dir (map byte e))) encs ->
  stripSpace dir encs (a ++ c :: b)
  = option_map (fun a' => a' ++ c :: b) (stripSpace dir encs a).
Proof.
  induction 1 as [|e rest He _ IH]; [reflexivity|].
  cbn [stripSpace]. rewrite (stripPrefix_before _ b He a).
  destruct (stripPrefix (dir (map byte e)) a); [reflexivity|exact IH].
Qed.

Lemma stripSpace_before (a b : list ascii) :
  stripSpace dir spaceEncodings (a ++ c :: b)
  = option_map (fun a' => a' ++ c :: b) (stripSpace dir spaceEncodings a).
Proof. apply stripSpace_before_in, not_space. Qed.

Lemma dir_nonempty :
  Forall (fun e => 0 < length (dir (map byte e))) spaceEncodings.
Proof. now apply spaceEncodings_nonempty. Qed.

Lemma trimFuel_before (b : list ascii) (fuel : nat) :
  forall a : list ascii,
    length a <= fuel ->
    trimFuel dir fuel (a ++ c :: b) = trimFuel dir fuel a ++ c :: b.
Proof.
  induction fuel as [|k IH]; intros a Ha; [reflexivity|].
  cbn [trimFuel]. rewrite stripSpace_before.
  destruct (stripSpace dir spaceEncodings a) as [a'|] eqn:E;
    cbn [option_map]; [|reflexivity].
  apply IH. apply (stripSpace_shorter _ _ _ _ dir_nonempty) in E. lia.
Qed.

Lemma trimFuel_enough (n : nat) :
  forall (m : nat) (l : list ascii),
    length l <= n -> length l <= m -> trimFuel dir n l = trimFuel dir m l.
Proof.
  induction n as [|k IH]; intros m l Hn Hm.
  - destruct l; [|simpl in Hn; lia]. destruct m; cbn [trimFuel];
      [reflexivity|].
    destruct (stripSpace dir spaceEncodings []) as [l'|] eqn:E;
      [|reflexivity].
    apply (stripSpace_shorter _ _ _ _ dir_nonempty) in E. simpl in E. lia.
  - destruct m as [|m].
    + destruct l; [|simpl in Hm; lia]. cbn [trimFuel].
      destruct (stripSpace dir spaceEncodings []) as [l'|] eqn:E;
        [|reflexivity].
      apply (stripSpace_shorter _ _ _ _ dir_nonempty) in E. simpl in E. lia.
    + cbn [trimFuel].
      destruct (stripSpace dir spaceEncodings l) as [l'|] eqn:E;
        [|reflexivity].
      apply (stripSpace_shorter _ _ _ _ dir_nonempty) in E.
      apply IH; lia.
Qed.

Lemma trim_before (a b : list ascii) :
  trimFuel dir (length (a ++ c :: b)) (a ++ c :: b)
  = trimFuel dir (length a) a ++ c :: b.
Proof.
  rewrite trimFuel_before by (rewrite length_app; lia).
  f_equal. apply trimFuel_enough; [rewrite length_app; lia|lia].
Qed.
End AroundAByte.

Lemma colon_is_no_space (dir : list ascii -> list ascii) :
  (forall l x, In x (dir l) -> In x l) ->
  Forall (fun e => ~ In colon (dir (map byte e))) spaceEncodings.
Proof.
  intros Hdir. unfold spaceEncodings.
  repeat (constructor;
          [intros H; apply Hdir in H; cbn in H; intuition discriminate|]).
  constructor.
Qed.

Lemma trimLeft_before_colon (a b : list ascii) :
  trimLeft (a ++ colon :: b) = trimLeft a ++ colon :: b.
Proof.
  apply (trim_before colon id); [|reflexivity].
  apply colon_is_no_space. intros l x H. exact H.
Qed.

Lemma trimRight_after_colon (a b : list ascii) :
  trimRight (a ++ colon :: b) = a ++ colon :: trimRight b.
Proof.
  unfold trimRight.
  replace (rev (a ++ colon :: b)) with (rev b ++ colon :: rev a)
    by (rewrite rev_app_distr; cbn [rev]; now rewrite <- app_assoc).
  replace (length (a ++ colon :: b)) with (length (rev b ++ colon :: rev a))
    by (rewrite !length_app; cbn [length]; rewrite !length_rev; lia).
  rewrite (trim_before colon (@rev ascii)).
  - rewrite rev_app_distr. cbn [rev]. rewrite rev_involutive, <- app_assoc.
    now rewrite length_rev.
  - apply colon_is_no_space. intros l x H. now apply in_rev.
  - apply length_rev.
Qed.

Lemma trimLeft_idempotent (l : list ascii) : trimLeft (trimLeft l) = trimLeft l.
Proof.
  pose proof (trimLeft_done l) as H. unfold trimLeft at 1.
  destruct (length (trimLeft l)); cbn [trimFuel]; [reflexivity|].
  now rewrite H.
Qed.

Lemma linesOf_single (s : string) :
  Spec.hasByte newline s = false -> Spec.linesOf s = [s].
Proof.
  induction s as [|d r IH]; intros H; [reflexivity|].
  cbn [Spec.hasByte] in H. apply orb_false_iff in H as [Hd Hr].
  cbn [Spec.linesOf]. now rewrite Hd, (IH Hr).
Qed.

Lemma ofBytes_toBytes (s : string) : ofBytes (toBytes s) = s.
Proof. induction s as [|d r IH]; simpl; [reflexivity|now rewrite IH]. Qed.

Lemma cut_at_first (c : ascii) (a b : list ascii) :
  ~ In c a ->
  Spec.hasByte c (ofBytes (a ++ c :: b)) = true
  /\ Spec.beforeFirst c (ofBytes (a ++ c :: b)) = ofBytes a
  /\ Spec.afterFirst c (ofBytes (a ++ c :: b)) = ofBytes b.
Proof.
  induction a as [|d a IH]; intros Hc; cbn.
  - rewrite Ascii.eqb_refl. repeat split; reflexivity.
  - destruct (Ascii.eqb_spec d c) as [->|_]; [exfalso; apply Hc; now left|].
    destruct IH as (H1 & H2 & H3); [intros H; apply Hc; now right|].
    cbn. now rewrite H1, H2, H3.
Qed.

(** X22. A text that is one line of the form key, colon, value (the key
    part without colon, the whole without newline) yields the mapping with
    the single entry whose key is the key part trimmed and lower-cased, and
    whose value is everything after the first colon, later colons
    included, trimmed of the white space at its end and then on both
    sides. *)
Theorem key_value_line_sets_one_key (MapToLower : string -> string)
    (k v : string) :
  Spec.hasByte colon k = false ->
  Spec.hasByte newline k = false ->
  Spec.hasByte newline v = false ->
  parseMetadata MapToLower (k +:+ String colon v)
  = {[ ToLower MapToLower (TrimSpace k) := TrimSpace (TrimRightSpace v) ]}.
Proof.
  intros Hkc Hkn Hvn.
  assert (Spec.hasByte newline (k +:+ String colon v) = false) as Hn.
  { destruct (Spec.hasByte newline (k +:+ String colon v)) eqn:E;
      [|reflexivity].
    apply hasByte_In in E. rewrite toBytes_append in E.
    apply in_app_or in E as [E|[E|E]].
    - apply hasByte_In in E. congruence.
    - discriminate E.
    - apply hasByte_In in E. congruence. }
  unfold parseMetadata. rewrite Split_linesOf, (linesOf_single _ Hn).
  cbn [fold_left]. rewrite parseLine_entry. unfold Spec.entry.
  assert (TrimSpace (k +:+ String colon v)
          = ofBytes (trimLeft (toBytes k) ++ colon :: trimRight (toBytes v)))
    as ->.
  { unfold TrimSpace. rewrite toBytes_append. cbn [toBytes].
    now rewrite trimLeft_before_colon, trimRight_after_colon. }
  assert (~ In colon (trimLeft (toBytes k))) as Hc.
  { intros H. apply trimFuel_In in H. apply hasByte_In in H. congruence. }
  destruct (cut_at_first colon _ (trimRight (toBytes v)) Hc)
    as (H1 & H2 & H3).
  rewrite H1, H2, H3. cbn [negb].
  destruct (String.eqb_spec
              (ofBytes (trimLeft (toBytes k) ++ colon :: trimRight (toBytes v)))
              "") as [E|_].
  { apply (f_equal toBytes) in E. rewrite toBytes_ofBytes in E.
    now destruct (trimLeft (toBytes k)). }
  rewrite insert_empty. unfold TrimSpace at 1, TrimRightSpace.
  now rewrite toBytes_ofBytes, trimLeft_idempotent.
Qed.

Lemma key_value_line_sets_one_key_witness :
  parseMetadata id ("  Title " +:+ String colon " a:b ")
  = {[ ToLower id (TrimSpace "  Title ")
       := TrimSpace (TrimRightSpace " a:b ") ]}.
Proof.
  exact (key_value_line_sets_one_key id "  Title " " a:b "
           eq_refl eq_refl eq_refl).
Defined.

(** ** The two handlers side by side *)


Lemma lostFile_is_plain : plainWorld Failures.lostFile.
Proof.
  intros srv q files H. unfold Failures.lostFile in H. cbn [FilesList] in H.
  destruct (String.eqb q (filesQuery "h")); [|discriminate H].
  injection H as <-. reflexivity.
Defined.


(** X24. The earlier handler sends status 200 for every request: on each
    error path it writes the error document first, which sends the status
    line, and its later [WriteHeader] has no effect. *)
Theorem earlier_handler_status_is_200 (MapToLower : string -> string)
    (w : World) (r : Request) :
  statusCode (value (Basic.Handler MapToLower w newResponseWriter r)) = 200
  /\ (Method r <> "OPTIONS" ->
      exists doc : JSON,
        body (value (Basic.Handler MapToLower w newResponseWriter r)) = [doc]).
Proof.
  unfold Basic.Handler.
  destruct (String.eqb_spec (Method r) "OPTIONS") as [Ho|Ho];
    [split; [reflexivity|contradiction]|].
  destruct (String.eqb (Method r) "GET"); cbn [negb];
    [|split; [reflexivity|intros _; eexists; reflexivity]].
  destruct (String.eqb _ "");
    [split; [reflexivity|intros _; eexists; reflexivity]|].
  destruct (String.eqb _ "");
    [split; [reflexivity|intros _; eexists; reflexivity]|].
  unfold drive_NewService, bind, emit, ret.
  destruct (NewService w _) as [srv|err];
    [|split; [reflexivity|intros _; eexists; reflexivity]].
  destruct (Basic.getItems MapToLower w srv _) as [[items|err] l];
    split; try reflexivity; intros _; eexists; reflexivity.
Qed.

(** X25. When the listing of an item folder fails, both handlers make that
    one call, and the folder fails with the error "error listing files in
    folder: " followed by the cause; the item returned with the error has
    empty fields and no URL. *)
Theorem folder_listing_failure_fails_the_folder
    (MapToLower : string -> string) (w : World) (srv : Service)
    (folderID folderName err : string) :
  FilesList w srv (filesQuery folderID) fileFields = Err err ->
  Extended.processItemFolder MapToLower w srv folderID folderName
  = ((Extended.emptyItem, Some ("error listing files in folder: " +:+ err)),
     [EvFilesList (filesQuery folderID) fileFields])
  /\ Basic.processItemFolder MapToLower w srv folderID folderName
     = ((Basic.emptyItem, Some ("error listing files in folder: " +:+ err)),
        [EvFilesList (filesQuery folderID) fileFields]).
Proof.
  intros L.
  rewrite (ext_process_not_listed MapToLower w srv _ folderName _ L).
  rewrite (bas_process_not_listed MapToLower w srv _ folderName _ L).
  cbn [Sprintf Ascii.eqb Bool.eqb orb]. now rewrite append_empty.
Qed.

Lemma folder_listing_failure_fails_the_folder_witness :
  Extended.processItemFolder id (Examples.world "root") Examples.service
    "f2" "two"
  = ((Extended.emptyItem,
      Some ("error listing files in folder: " +:+ "backend error")),
     [EvFilesList (filesQuery "f2") fileFields])
  /\ Basic.processItemFolder id (Examples.world "root") Examples.service
       "f2" "two"
     = ((Basic.emptyItem,
         Some ("error listing files in folder: " +:+ "backend error")),
        [EvFilesList (filesQuery "f2") fileFields]).
Proof.
  exact (folder_listing_failure_fails_the_folder id (Examples.world "root")
           Examples.service "f2" "two" "backend error" eq_refl).
Defined.

(** X26. When the listing of the root folder fails, [api/index.go]
    answers with status 500 and the error "error listing folders: "
    followed by the cause, after two calls only: the construction of the
    client and the root listing. No child folder is processed. *)
Theorem root_listing_failure_is_reported (MapToLower : string -> string)
    (w : World) (r : Request) (srv : Service) (err : string) :
  Method r = "GET" ->
  rootFolderOf w r <> "" ->
  Getenv w "GOOGLE_CREDENTIALS_JSON" <> "" ->
  NewService w (Getenv w "GOOGLE_CREDENTIALS_JSON") = OK srv ->
  FilesList w srv (foldersQuery (rootFolderOf w r)) folderFields = Err err ->
  let ext := Extended.Handler MapToLower w newResponseWriter r in
  statusCode (value ext) = 500
  /\ body (value ext) = [errorDocument ("error listing folders: " +:+ err)]
  /\ calls ext
     = [EvNewService (Getenv w "GOOGLE_CREDENTIALS_JSON");
        EvFilesList (foldersQuery (rootFolderOf w r)) folderFields].
Proof.
  intros Hg Hroot Hc Hs L. cbv zeta.
  destruct (root_listing_failure_fails_request MapToLower w r srv Hg Hroot
              Hc Hs err L) as (E1 & E2 & _).
  split; [exact E1|]. split.
  - rewrite E2, errorJSON_document by discriminate.
    cbn [Sprintf Ascii.eqb Bool.eqb orb]. now rewrite append_empty.
  - apply String.eqb_neq in Hroot, Hc.
    unfold Extended.Handler. rewrite Hg.
    cbn [String.eqb Ascii.eqb Bool.eqb negb]. fold (rootFolderOf w r).
    rewrite Hroot, Hc.
    assert (forall c, value (drive_NewService w c) = NewService w c) as Hv
      by reflexivity.
    assert (forall c, calls (drive_NewService w c) = [EvNewService c]) as Hn
      by reflexivity.
    rewrite calls_bind, Hv, Hn, Hs, calls_bind.
    rewrite (ext_getItems_not_listed MapToLower w srv _ _ L).
    reflexivity.
Qed.

Lemma root_listing_failure_is_reported_witness :
  statusCode (value (Extended.Handler id (Examples.world "nowhere")
                       newResponseWriter (Examples.request "GET"))) = 500
  /\ body (value (Extended.Handler id (Examples.world "nowhere")
                    newResponseWriter (Examples.request "GET")))
     = [errorDocument ("error listing folders: " +:+ "backend error")]
  /\ calls (Extended.Handler id (Examples.world "nowhere") newResponseWriter
              (Examples.request "GET"))
     = [EvNewService "{}"; EvFilesList (foldersQuery "nowhere") folderFields].
Proof.
  apply (root_listing_failure_is_reported id (Examples.world "nowhere")
           (Examples.request "GET") Examples.service "backend error");
    (reflexivity || discriminate).
Defined.
